(** * RAG-Chatbot: vector store and hybrid retrieval

    A shallow embedding of [services/faiss_store.py] (class
    [FAISSCollection]) and [services/embeddings.py] ([chunk_and_store],
    [retrieve_context], [keyword_search]), and the properties of the
    design document that concern them.

    Python values are modelled as follows.
    - [str] is [string]; a character is a code point in U+0000..U+00FF, so
      [str.lower], [str.strip] and [str.split] are exact on Latin-1 text.
    - [int] is [Z]; [len] results are injected with [Z.of_nat].
    - a metadata [dict] is a [gmap string string].
    - a call that may raise returns an [outcome]; a method that mutates the
      collection or the disk returns the new collection and the new disk.
    - the embedding model, the text splitter, the FAISS index and the
      file system are collaborators: the first two are interfaces (type
      classes), the index is modelled from the design document, and what the
      file system and [uuid.uuid4] do during one call is an [IOEnv].

    The callers are embedded as well: the conversation memory of [config.py]
    ([remember_exchange], [build_messages_with_context]), the frame of a
    streamed chunk in [main.chat_stream], and the upload handlers
    [process_audio], [process_video] and [process_image], with the
    transcription and vision services as collaborators of one call. *)

From Stdlib Require Import ZArith String Ascii List Sorted Permutation Lia Bool.
From stdpp Require Import base list gmap strings.
From stdpp Require Import pretty.

Local Open Scope string_scope.
Local Open Scope Z_scope.

(** ** Exceptions *)

Inductive exn : Type :=
| EmbeddingError      (* the embedding model raised *)
| DimensionMismatch   (* faiss rejected a vector of the wrong length *)
| IndexError          (* list index out of range *)
| OSError             (* a file-system call failed *)
| SplitterError       (* the text splitter raised *)
| CollectionError.    (* a duck-typed collection raised *)

Inductive outcome (A : Type) : Type :=
| Return (a : A)
| Raise (e : exn).
Arguments Return {A} a.
Arguments Raise {A} e.

(** Sequencing, written [x ← m; k] below: an exception skips the rest. *)
#[global] Instance outcome_bind : MBind outcome := fun A B k m =>
  match m with
  | Return a => k a
  | Raise e => Raise e
  end.

(** [try: body / except Exception: handler] *)
Definition try_except {A} (body : outcome A) (handler : exn -> outcome A) : outcome A :=
  match body with
  | Return a => Return a
  | Raise e => handler e
  end.

Definition raises {A} (m : outcome A) : Prop := exists e, m = Raise e.

(** ** Python lists and strings *)

Definition len {A} (l : list A) : Z := Z.of_nat (length l).

(** [l[:n]] for any integer [n]: a negative bound counts from the end. *)
Definition slice_to {A} (n : Z) (l : list A) : list A :=
  if 0 <=? n then firstn (Z.to_nat n) l
  else firstn (length l - Z.to_nat (- n))%nat l.

(** [sum(...)] over integers. *)
Definition py_sum (l : list Z) : Z := fold_left Z.add l 0.

Module PyStr.

Definition nl : string := String (ascii_of_nat 10) EmptyString.

(** [c.isspace()] on U+0000..U+00FF. *)
Definition isspace (c : ascii) : bool :=
  let n := N_of_ascii c in
  ((9 <=? n) && (n <=? 13) || (28 <=? n) && (n <=? 32)
   || (n =? 133) || (n =? 160))%N.

(** [c.lower()] on U+0000..U+00FF: A-Z, and the Latin-1 capitals
    U+00C0..U+00DE except the multiplication sign U+00D7. *)
Definition lower_char (c : ascii) : ascii :=
  let n := N_of_ascii c in
  if ((65 <=? n) && (n <=? 90)
      || (192 <=? n) && (n <=? 222) && negb (n =? 215))%N
  then ascii_of_N (n + 32) else c.

Fixpoint lower (s : string) : string :=
  match s with
  | EmptyString => EmptyString
  | String c s' => String (lower_char c) (lower s')
  end.

(** [s.split(sep)] for a one-character separator. *)
Fixpoint split_on (sep : ascii) (s : string) : list string :=
  match s with
  | EmptyString => [EmptyString]
  | String c s' =>
      if Ascii.eqb c sep then EmptyString :: split_on sep s'
      else match split_on sep s' with
           | w :: ws => String c w :: ws
           | [] => [String c EmptyString]
           end
  end.

(** [s.split()]: maximal runs of non-whitespace characters. *)
Fixpoint split_ws (s : string) : list string :=
  match s with
  | EmptyString => []
  | String c s' =>
      if isspace c then split_ws s'
      else match s' with
           | EmptyString => [String c EmptyString]
           | String c' _ =>
               if isspace c' then String c EmptyString :: split_ws s'
               else match split_ws s' with
                    | w :: ws => String c w :: ws
                    | [] => [String c EmptyString]
                    end
           end
  end.

Fixpoint lstrip (s : string) : string :=
  match s with
  | EmptyString => EmptyString
  | String c s' => if isspace c then lstrip s' else s
  end.

Fixpoint rstrip (s : string) : string :=
  match s with
  | EmptyString => EmptyString
  | String c s' =>
      match rstrip s' with
      | EmptyString => if isspace c then EmptyString else String c EmptyString
      | r => String c r
      end
  end.

(** [s.strip()] *)
Definition strip (s : string) : string := rstrip (lstrip s).

Fixpoint startswith (s p : string) : bool :=
  match p, s with
  | EmptyString, _ => true
  | String a p', String b s' => Ascii.eqb a b && startswith s' p'
  | String _ _, EmptyString => false
  end.

(** [sub in s] *)
Fixpoint contains (s sub : string) : bool :=
  startswith s sub
  || match s with
     | EmptyString => false
     | String _ s' => contains s' sub
     end.

(** A blank string: nothing but whitespace. *)
Fixpoint all_space (s : string) : bool :=
  match s with
  | EmptyString => true
  | String c s' => isspace c && all_space s'
  end.

(** [sep.join(l)] *)
Definition join (sep : string) (l : list string) : string := String.concat sep l.

(** [bool(s)]: a string is truthy when it is not empty. *)
Definition truthy (s : string) : bool :=
  match s with EmptyString => false | String _ _ => true end.

End PyStr.

(** ** [embeddings.keyword_search] *)

(** The generator [1 for word in query_lower.split() if word in line.lower()]. *)
Definition keyword_hits (query_lower line : string) : list Z :=
  map (fun _ => 1)
      (List.filter (fun word => PyStr.contains (PyStr.lower line) word)
                   (PyStr.split_ws query_lower)).

Definition line_score (query_lower line : string) : Z :=
  py_sum (keyword_hits query_lower line).

(** The loop over [lines] that fills [scored_lines]. *)
Fixpoint score_lines (query_lower : string) (lines : list string) : list (Z * string) :=
  match lines with
  | [] => []
  | line :: rest =>
      if 0 <? Z.of_nat (String.length (PyStr.strip line)) then
        let score := line_score query_lower line in
        if 0 <? score then (score, line) :: score_lines query_lower rest
        else score_lines query_lower rest
      else score_lines query_lower rest
  end.

(** [scored_lines.sort(key=lambda x: x[0], reverse=True)]: Python's sort is
    stable, also under [reverse=True]. *)
Fixpoint insert_desc (x : Z * string) (l : list (Z * string)) : list (Z * string) :=
  match l with
  | [] => [x]
  | y :: ys => if fst y <=? fst x then x :: y :: ys else y :: insert_desc x ys
  end.

Fixpoint sort_desc (l : list (Z * string)) : list (Z * string) :=
  match l with
  | [] => []
  | x :: xs => insert_desc x (sort_desc xs)
  end.

(** [a] may stand before [b] in the ranking. *)
Definition score_ge (a b : Z * string) : Prop := fst b <= fst a.

Definition keyword_search_body (full_text query : string) (top_k : Z) : outcome string :=
  let query_lower := PyStr.lower query in
  let lines := PyStr.split_on (ascii_of_nat 10) full_text in
  let scored_lines := score_lines query_lower lines in
  match scored_lines with
  | _ :: _ =>
      let matched := map snd (slice_to top_k (sort_desc scored_lines)) in
      Return (PyStr.join PyStr.nl matched)
  | [] => Return ""
  end.

Definition keyword_search (full_text query : string) (top_k : Z) : string :=
  match try_except (keyword_search_body full_text query top_k)
                   (fun _ => Return "") with
  | Return s => s
  | Raise _ => ""
  end.

(** [top_k: int = 3] *)
Definition keyword_search_default_top_k : Z := 3.

(** ** Collaborators *)

(** Embedding vectors and the distance FAISS ranks them by. [dle] is [<=] on
    distances (squared Euclidean distances, which are never NaN for finite
    vectors). *)
Class VectorSpace : Type := {
  vec : Type;
  vdim : vec -> nat;
  distance : Type;
  l2 : vec -> vec -> distance;
  dle : distance -> distance -> bool
}.

Class VectorSpaceLaws `{VectorSpace} : Prop := {
  dle_total : forall a b, dle a b = true \/ dle b a = true;
  dle_trans : forall a b c, dle a b = true -> dle b c = true -> dle a c = true
}.

(** [SentenceTransformer.encode(texts, convert_to_numpy=True)]: one call for
    the whole batch, which either raises or returns the rows. *)
Class EmbeddingModel `{VectorSpace} : Type := {
  encode : list string -> outcome (list vec)
}.

(** The model returns one row per text. *)
Class EmbeddingModelLaws `{EmbeddingModel} : Prop := {
  encode_length : forall texts rows,
    encode texts = Return rows -> length rows = length texts
}.

(** [get_text_splitter(chunk_size, chunk_overlap).split_text(text)], from
    langchain_text_splitters. *)
Class TextSplitter : Type := {
  split_text : Z -> Z -> string -> outcome (list string)
}.

(** What the file system and [uuid.uuid4] do during one call. A write that
    fails leaves the file as it was or truncated. *)
Inductive write_result : Type :=
| WriteOk
| WriteFailsBefore
| WriteFailsMidway.

Record IOEnv : Type := {
  makedirs_ok : bool;
  write_index : write_result;
  write_meta : write_result;
  uuid4 : nat -> string
}.

Inductive file (A : Type) : Type :=
| Garbage
| Content (a : A).
Arguments Garbage {A}.
Arguments Content {A} a.

Section Model.
Context {VS : VectorSpace} {EM : EmbeddingModel} {TS : TextSplitter}.

(** *** The vector index *)

(** Modelled from the spec: [faiss.IndexFlatL2] is not part of the
    repository. Section 4.1 of the design document: the index keeps the
    rows in insertion order, [add] appends or fails on a row of the wrong
    length, [search] returns up to [k] (row, distance) pairs by ascending
    distance, all rows when there are fewer than [k], none on an empty
    index, and fails on a query of the wrong length. *)
Record IndexFlatL2 : Type := {
  d : nat;
  xb : list vec
}.

Definition ntotal (ix : IndexFlatL2) : nat := length (xb ix).

Definition index_create (dim : nat) : IndexFlatL2 := {| d := dim; xb := [] |}.

Definition index_add (ix : IndexFlatL2) (rows : list vec) : outcome IndexFlatL2 :=
  if forallb (fun v => Nat.eqb (vdim v) (d ix)) rows
  then Return {| d := d ix; xb := xb ix ++ rows |}
  else Raise DimensionMismatch.

Fixpoint insert_asc (x : nat * distance) (l : list (nat * distance))
  : list (nat * distance) :=
  match l with
  | [] => [x]
  | y :: ys => if dle (snd x) (snd y) then x :: y :: ys else y :: insert_asc x ys
  end.

Fixpoint sort_asc (l : list (nat * distance)) : list (nat * distance) :=
  match l with
  | [] => []
  | x :: xs => insert_asc x (sort_asc xs)
  end.

Definition dist_le (a b : nat * distance) : Prop := dle (snd a) (snd b) = true.

(** Every row with its distance to the query, from row [i] on. *)
Fixpoint row_distances (q : vec) (i : nat) (rows : list vec) : list (nat * distance) :=
  match rows with
  | [] => []
  | v :: rest => (i, l2 q v) :: row_distances q (S i) rest
  end.

Definition search_one (ix : IndexFlatL2) (q : vec) (k : Z) : list (nat * distance) :=
  firstn (Z.to_nat k) (sort_asc (row_distances q 0 (xb ix))).

(** [distances, indices = index.search(queries, k)] *)
Definition index_search (ix : IndexFlatL2) (queries : list vec) (k : Z)
  : outcome (list (list distance) * list (list nat)) :=
  if forallb (fun v => Nat.eqb (vdim v) (d ix)) queries
  then Return (map (fun q => map snd (search_one ix q k)) queries,
               map (fun q => map fst (search_one ix q k)) queries)
  else Raise DimensionMismatch.

(** *** [FAISSCollection] *)

Record FAISSCollection : Type := {
  name : string;
  persist_dir : string;
  dimension : nat;
  index : IndexFlatL2;
  documents : list string;
  metadatas : list (gmap string string);
  ids : list string
}.

(** The dictionary pickled into the metadata file. *)
Record Pickle : Type := {
  pk_documents : list string;
  pk_metadatas : list (gmap string string);
  pk_ids : list string
}.

(** The two files of one collection, [index_path] and [meta_path]: absent,
    unreadable, or holding what was written. *)
Record Disk : Type := {
  index_file : option (file IndexFlatL2);
  meta_file : option (file Pickle)
}.

Definition _create_new_index (name persist_dir : string) : FAISSCollection :=
  {| name := name; persist_dir := persist_dir; dimension := 384;
     index := index_create 384;
     documents := []; metadatas := []; ids := [] |}.

Definition _load_or_create (name persist_dir : string) (dk : Disk) : FAISSCollection :=
  match index_file dk, meta_file dk with
  | Some fi, Some fm =>
      match fi, fm with
      | Content ix, Content metadata =>
          {| name := name; persist_dir := persist_dir; dimension := 384;
             index := ix;
             documents := pk_documents metadata;
             metadatas := pk_metadatas metadata;
             ids := pk_ids metadata |}
      | _, _ => _create_new_index name persist_dir
      end
  | _, _ => _create_new_index name persist_dir
  end.

Definition __init__ (name persist_dir : string) (dk : Disk) : FAISSCollection :=
  _load_or_create name persist_dir dk.

(** The body of the [try] in [_persist]: the index file first, then the
    metadata file. *)
Definition _persist_body (env : IOEnv) (c : FAISSCollection) (dk : Disk)
  : outcome unit * Disk :=
  if negb (makedirs_ok env) then (Raise OSError, dk)
  else
    match write_index env with
    | WriteFailsBefore => (Raise OSError, dk)
    | WriteFailsMidway =>
        (Raise OSError, {| index_file := Some Garbage; meta_file := meta_file dk |})
    | WriteOk =>
        let dk1 := {| index_file := Some (Content (index c)); meta_file := meta_file dk |} in
        match write_meta env with
        | WriteFailsBefore => (Raise OSError, dk1)
        | WriteFailsMidway =>
            (Raise OSError, {| index_file := index_file dk1; meta_file := Some Garbage |})
        | WriteOk =>
            (Return tt,
             {| index_file := index_file dk1;
                meta_file := Some (Content {| pk_documents := documents c;
                                              pk_metadatas := metadatas c;
                                              pk_ids := ids c |}) |})
        end
    end.

(** [except Exception as e: print(...)] *)
Definition _persist (env : IOEnv) (c : FAISSCollection) (dk : Disk)
  : outcome unit * Disk :=
  let '(r, dk') := _persist_body env c dk in
  (try_except r (fun _ => Return tt), dk').

(** [bool(x)] for an optional list: [None] and [[]] are falsy. *)
Definition truthy_list {A} (x : option (list A)) : bool :=
  match x with
  | Some (_ :: _) => true
  | _ => false
  end.

Definition add (env : IOEnv) (c : FAISSCollection) (dk : Disk)
  (ids_ : list string) (documents_ : option (list string))
  (metadatas_ : option (list (gmap string string)))
  : outcome unit * FAISSCollection * Disk :=
  match documents_ with
  | Some ((_ :: _) as docs) =>
      match try_except (encode docs) (fun e => Raise e) with
      | Raise e => (Raise e, c, dk)
      | Return embeddings =>
          match try_except (index_add (index c) embeddings) (fun e => Raise e) with
          | Raise e => (Raise e, c, dk)
          | Return ix =>
              let c' :=
                {| name := name c; persist_dir := persist_dir c;
                   dimension := dimension c;
                   index := ix;
                   documents := documents c ++ docs;
                   metadatas :=
                     metadatas c ++
                     (match metadatas_ with
                      | Some ((_ :: _) as ms) => ms
                      | _ => map (fun _ => ∅) docs
                      end);
                   ids := ids c ++ ids_ |} in
              let '(r, dk') := _persist env c' dk in
              (try_except r (fun e => Raise e), c', dk')
          end
      end
  | _ => (Return tt, c, dk)
  end.

Record GetResult : Type := {
  g_ids : list string;
  g_documents : list string;
  g_metadatas : list (gmap string string)
}.

(** [all(meta.get(k) == v for k, v in where.items())] *)
Definition where_matches (where_ meta : gmap string string) : bool :=
  forallb (fun kv => bool_decide (meta !! fst kv = Some (snd kv)))
          (map_to_list where_).

(** [l[i]] for a position [i >= 0]. *)
Definition getitem {A} (l : list A) (i : nat) : outcome A :=
  match l !! i with
  | Some x => Return x
  | None => Raise IndexError
  end.

(** The loop of [get] over [enumerate(self.metadatas)], from position [i]. *)
Fixpoint get_loop (c : FAISSCollection) (where_ : gmap string string)
  (i : nat) (metas : list (gmap string string))
  : outcome (list (string * string * gmap string string)) :=
  match metas with
  | [] => Return []
  | meta :: rest =>
      if where_matches where_ meta then
        id ← getitem (ids c) i;
        doc ← getitem (documents c) i;
        more ← get_loop c where_ (S i) rest;
        Return ((id, doc, meta) :: more)
      else get_loop c where_ (S i) rest
  end.

Definition get (c : FAISSCollection) (where_ : option (gmap string string))
  : outcome GetResult :=
  match where_ with
  | Some w =>
      if bool_decide (w = ∅) then
        Return {| g_ids := ids c; g_documents := documents c;
                  g_metadatas := metadatas c |}
      else
        matching ← get_loop c w 0 (metadatas c);
        Return {| g_ids := map (fun t => fst (fst t)) matching;
                  g_documents := map (fun t => snd (fst t)) matching;
                  g_metadatas := map snd matching |}
  | None =>
      Return {| g_ids := ids c; g_documents := documents c;
                g_metadatas := metadatas c |}
  end.

Record QueryResult : Type := {
  q_documents : list (list string);
  q_distances : list (list distance);
  q_metadatas : list (list (gmap string string))
}.

(** [[l[i] for i in idx_list if i < len(l)]] *)
Definition gather {A} (l : list A) (idx_list : list nat) : list A :=
  omap (fun i => l !! i) (List.filter (fun i => Nat.ltb i (length l)) idx_list).

Definition query (c : FAISSCollection) (query_texts : list string) (n_results : Z)
  : outcome QueryResult :=
  match query_texts, documents c with
  | _ :: _, _ :: _ =>
      query_embedding ← try_except (encode query_texts) (fun e => Raise e);
      let k := Z.min n_results (len (documents c)) in
      found ← try_except (index_search (index c) query_embedding k) (fun e => Raise e);
      let '(distances, indices) := found in
      Return {| q_documents := map (gather (documents c)) indices;
                q_distances := distances;
                q_metadatas := map (gather (metadatas c)) indices |}
  | _, _ => Return {| q_documents := [[]]; q_distances := [[]]; q_metadatas := [[]] |}
  end.

Definition count (c : FAISSCollection) : Z := len (documents c).

(** Invariant I1 of the design document. *)
Definition I1 (c : FAISSCollection) : Prop :=
  length (ids c) = length (documents c)
  /\ length (documents c) = length (metadatas c)
  /\ length (metadatas c) = ntotal (index c).

(** What [add] requires of its arguments. A missing [metadatas] is
    accepted: the code stores empty dictionaries. *)
Definition add_precondition (ids_ : list string) (documents_ : option (list string))
  (metadatas_ : option (list (gmap string string))) : Prop :=
  match documents_ with
  | Some docs =>
      length ids_ = length docs
      /\ match metadatas_ with
         | Some ms => length ms = length docs
         | None => True
         end
  | None => True
  end.

(** The persisted files, when both can be read, hold lists and an index
    of one size. *)
Definition disk_I1 (dk : Disk) : Prop :=
  match index_file dk, meta_file dk with
  | Some (Content ix), Some (Content pk) =>
      length (pk_ids pk) = length (pk_documents pk)
      /\ length (pk_documents pk) = length (pk_metadatas pk)
      /\ length (pk_metadatas pk) = ntotal ix
  | _, _ => True
  end.

(** *** [embeddings.chunk_and_store] *)

(** [{"source": source} if source else {}] *)
Definition source_metadata (source : option string) : gmap string string :=
  match source with
  | Some src => if PyStr.truthy src then {[ "source" := src ]} else ∅
  | None => ∅
  end.

(** The duplicate check: [True] when the function returns [0, True] at
    once. An exception raised by [get] is swallowed ([pass]). *)
Definition source_exists (c : FAISSCollection) (source : option string) : bool :=
  match source with
  | Some src =>
      if PyStr.truthy src then
        match get c (Some {[ "source" := src ]}) with
        | Return existing => 0 <? len (g_ids existing)
        | Raise _ => false
        end
      else false
  | None => false
  end.

Definition chunk_and_store (env : IOEnv) (text : string) (c : FAISSCollection)
  (dk : Disk) (source : option string) (chunk_size chunk_overlap : Z)
  : outcome (Z * bool) * FAISSCollection * Disk :=
  if source_exists c source then (Return (0, true), c, dk)
  else
    match split_text chunk_size chunk_overlap text with
    | Raise e => (Raise e, c, dk)
    | Return chunks =>
        let ids_ := map (uuid4 env) (seq 0 (length chunks)) in
        let metadatas_ := map (fun _ => source_metadata source) chunks in
        let '(r, c', dk') :=
          add env c dk ids_ (Some chunks) (Some metadatas_) in
        match try_except r (fun e => Raise e) with
        | Raise e => (Raise e, c', dk')
        | Return _ => (Return (len chunks, false), c', dk')
        end
    end.

(** [chunk_size: int = 1000, chunk_overlap: int = 200] *)
Definition default_chunk_size : Z := 1000.
Definition default_chunk_overlap : Z := 200.

(** *** [embeddings.retrieve_context] *)

(** [retrieve_context] only calls [count()] and [query(...)] on its
    [collection] argument: any object with the ChromaDB-like interface. *)
Class Collection (C : Type) : Type := {
  coll_count : C -> outcome Z;
  coll_query : C -> list string -> Z -> outcome QueryResult
}.

#[global] Instance FAISSCollection_Collection : Collection FAISSCollection := {
  coll_count c := Return (count c);
  coll_query := query
}.

Definition blank_line : string := PyStr.nl ++ PyStr.nl.

(** Step 2 of the function, the keyword fallback. *)
Definition keyword_fallback (query_ : string) (n_results : Z)
  (fallback_text : option string) : string * string :=
  match fallback_text with
  | Some ft =>
      if PyStr.truthy ft then
        let keyword_context := keyword_search ft query_ n_results in
        if PyStr.truthy keyword_context then (keyword_context, "keyword")
        else ("", "none")
      else ("", "none")
  | None => ("", "none")
  end.

Definition retrieve_context_body {C} {Coll : Collection C} (query_ : string)
  (collection : C) (n_results : Z) (fallback_text : option string)
  : outcome (string * string) :=
  count_ ← coll_count collection;
  if count_ =? 0 then Return ("", "none")
  else
    results ← coll_query collection [query_] (Z.min (n_results * 2) count_);
    documents_ ← getitem (q_documents results) 0;
    match documents_ with
    | _ :: _ =>
        let context_docs := slice_to n_results documents_ in
        Return (PyStr.join blank_line context_docs, "semantic")
    | [] => Return (keyword_fallback query_ n_results fallback_text)
    end.

Definition retrieve_context {C} {Coll : Collection C} (query_ : string)
  (collection : C) (n_results : Z) (fallback_text : option string)
  : string * string :=
  match retrieve_context_body query_ collection n_results fallback_text with
  | Return r => r
  | Raise _ => ("", "error")
  end.

(** [n_results: int = 5] *)
Definition default_n_results : Z := 5.

End Model.

(** ** [config]: the conversation memory *)

(** A message dictionary [{"role": ..., "content": ...}]. *)
Record Message : Type := {
  role : string;
  content : string
}.

(** [deque.append] on a [deque(maxlen=maxlen)]: a full deque discards its
    oldest item. *)
Definition deque_append {A} (maxlen : nat) (dq : list A) (x : A) : list A :=
  if Nat.ltb (length dq) maxlen then (dq ++ [x])%list else drop 1 (dq ++ [x])%list.

(** [chat_memory = deque(maxlen=10)]: the state is the content of the deque,
    oldest first, empty when the module is loaded. *)
Definition chat_memory_maxlen : nat := 10.
Definition chat_memory_initial : list Message := [].

Definition get_context_window (chat_memory : list Message) : list Message :=
  chat_memory.

(** The two appends are inside a [try] whose body cannot raise. *)
Definition remember_exchange (chat_memory : list Message)
  (user_text assistant_text : string) : list Message :=
  let chat_memory1 :=
    deque_append chat_memory_maxlen chat_memory
                 {| role := "user"; content := user_text |} in
  deque_append chat_memory_maxlen chat_memory1
               {| role := "assistant"; content := assistant_text |}.

Definition build_messages_with_context (chat_memory : list Message)
  (user_message : string) (system_prompt : option string) : list Message :=
  let messages0 :=
    match system_prompt with
    | Some sp =>
        if PyStr.truthy sp then [{| role := "system"; content := sp |}] else []
    | None => []
    end in
  let messages1 :=
    (messages0 ++ map (fun m => {| role := role m; content := content m |})
                      (get_context_window chat_memory))%list in
  (messages1 ++ [{| role := "user"; content := user_message |}])%list.

(** A conversation: [remember_exchange] after each exchange, in order. *)
Definition remember_all (chat_memory : list Message)
  (exchanges : list (string * string)) : list Message :=
  fold_left (fun m ex => remember_exchange m (fst ex) (snd ex)) exchanges chat_memory.

(** The messages of a list of exchanges, oldest first. *)
Definition exchange_messages (exchanges : list (string * string)) : list Message :=
  flat_map (fun ex => [{| role := "user"; content := fst ex |};
                       {| role := "assistant"; content := snd ex |}]) exchanges.

(** ** [main.chat_stream]: the frame of one streamed chunk *)

Definition backslash : ascii := ascii_of_nat 92.
Definition dquote : ascii := ascii_of_nat 34.
Definition newline : ascii := ascii_of_nat 10.

(** [s.replace(old, new)] for a one-character [old]. *)
Fixpoint replace_char (old : ascii) (new : string) (s : string) : string :=
  match s with
  | EmptyString => EmptyString
  | String c s' =>
      if Ascii.eqb c old then new ++ replace_char old new s'
      else String c (replace_char old new s')
  end.

(** [chunk.replace('\\', '\\\\').replace('"', '\\"').replace('\n', '\\n')] *)
Definition escaped_chunk (chunk : string) : string :=
  replace_char newline (String backslash "n")
    (replace_char dquote (String backslash (String dquote EmptyString))
       (replace_char backslash (String backslash (String backslash EmptyString))
                     chunk)).

(** The text between [data: ] and the blank line:
    [{"content": "<escaped_chunk>", "done": false}]. *)
Definition content_payload (chunk : string) : string :=
  "{" ++ String dquote "content" ++ String dquote ": " ++ String dquote EmptyString
  ++ escaped_chunk chunk
  ++ String dquote ", " ++ String dquote "done" ++ String dquote ": false}".

(** [f"data: {{\"content\": \"{escaped_chunk}\", \"done\": false}}\n\n"] *)
Definition content_frame (chunk : string) : string :=
  "data: " ++ content_payload chunk ++ String newline (String newline EmptyString).

(** ** The upload handlers *)

(** [str(n)] for an integer. *)
Definition str_int (n : Z) : string := pretty n.

(** The dictionary returned by [process_audio] and [process_video]. *)
Record UploadReply : Type := {
  status : string;
  message : string;
  duplicate : bool
}.

(** What happens around one upload: the file system and [uuid.uuid4] during
    [chunk_and_store], the write of the temporary file ([Some e] when it
    raises [e]), and [transcribe_audio] on the bytes written. The clean-up of
    the temporary file in [finally] swallows its own errors. *)
Record UploadEnv : Type := {
  up_io : IOEnv;
  tmp_write : option exn;
  transcribe_audio : string -> outcome string
}.

(** What [process_image] may raise: a [ValueError] of its own, or the
    exception of a callee. *)
Inductive upload_exn : Type :=
| ValueError (msg : string)
| Propagated (e : exn).

(** The dictionary returned by [process_image]; the key [analysis_preview]
    is absent for a duplicate. *)
Record ImageReply : Type := {
  i_status : string;
  i_message : string;
  i_duplicate : bool;
  analysis_preview : option string
}.

Inductive image_result : Type :=
| ImageReturn (r : ImageReply)
| ImageRaise (e : upload_exn).

(** What happens around one image upload: [Image.open] on the bytes
    ([Some e] when it raises [e]), whether a client object was given, what
    [ensure_ollama_model] answers (it returns a boolean and does not raise),
    and what [send_ollama_vision] does ([inl] its text, [inr] the text of
    the exception it raises). *)
Record ImageEnv : Type := {
  img_io : IOEnv;
  image_open : option exn;
  ollama_client : bool;
  ensure_ollama_model : string -> bool;
  send_ollama_vision : string -> string -> string -> string + string
}.

Definition vision_prompt : string :=
  "Describe this image in detail. Extract text, layout, objects, and data.".

(** [vision_model: str = "moondream:1.8b"] *)
Definition default_vision_model : string := "moondream:1.8b".

Section Handlers.
Context {VS : VectorSpace} {EM : EmbeddingModel} {TS : TextSplitter}.

(** [handlers.image_handler.process_image] *)
Definition process_image (env : ImageEnv) (file_bytes filename : string)
  (image_collection : FAISSCollection) (dk : Disk) (vision_model : string)
  : image_result * FAISSCollection * Disk :=
  match image_open env with
  | Some e => (ImageRaise (Propagated e), image_collection, dk)
  | None =>
      if negb (ollama_client env) then
        (ImageRaise (ValueError "Ollama client not available for image analysis"),
         image_collection, dk)
      else if negb (ensure_ollama_model env vision_model) then
        (ImageRaise (ValueError ("Vision model '" ++ vision_model
                                 ++ "' is not available. Please pull it with: ollama pull "
                                 ++ vision_model)),
         image_collection, dk)
      else
        match send_ollama_vision env vision_model vision_prompt file_bytes with
        | inr err =>
            (ImageRaise (ValueError ("Failed to analyze image with vision model: " ++ err)),
             image_collection, dk)
        | inl vision_response =>
            if negb (PyStr.truthy (PyStr.strip vision_response)) then
              (ImageRaise (ValueError "Vision model returned empty response"),
               image_collection, dk)
            else
              let full_text :=
                "Image: " ++ filename ++ PyStr.nl ++ PyStr.nl ++ "Analysis:"
                ++ PyStr.nl ++ vision_response in
              let '(r, c', dk') :=
                chunk_and_store (img_io env) full_text image_collection dk
                                (Some filename) 1000 200 in
              match r with
              | Raise e => (ImageRaise (Propagated e), c', dk')
              | Return (chunk_count, already_exists) =>
                  if already_exists then
                    (ImageReturn
                       {| i_status := "success";
                          i_message := "Image '" ++ filename
                                       ++ "' already exists in database. Skipped processing.";
                          i_duplicate := true;
                          analysis_preview := None |},
                     c', dk')
                  else
                    (ImageReturn
                       {| i_status := "success";
                          i_message := "Processed " ++ str_int chunk_count
                                       ++ " chunks from image using "
                                       ++ vision_model ++ ".";
                          i_duplicate := false;
                          analysis_preview :=
                            Some (if 200 <? Z.of_nat (String.length vision_response)
                                  then String.substring 0 200 vision_response ++ "..."
                                  else vision_response) |},
                     c', dk')
              end
        end
  end.

(** [handlers.audio_handler.process_audio] *)
Definition process_audio (env : UploadEnv) (file_bytes filename : string)
  (audio_collection : FAISSCollection) (dk : Disk)
  : outcome UploadReply * FAISSCollection * Disk :=
  match tmp_write env with
  | Some e => (Raise e, audio_collection, dk)
  | None =>
      match transcribe_audio env file_bytes with
      | Raise e => (Raise e, audio_collection, dk)
      | Return transcript =>
          if negb (PyStr.truthy transcript) then
            (Return {| status := "error";
                       message := "Could not transcribe audio. Ensure audio content exists and try uploading a different file.";
                       duplicate := false |},
             audio_collection, dk)
          else if negb (PyStr.truthy (PyStr.strip transcript)) then
            (Return {| status := "error";
                       message := "No speech detected in audio file";
                       duplicate := false |},
             audio_collection, dk)
          else
            let '(r, c', dk') :=
              chunk_and_store (up_io env) transcript audio_collection dk
                              (Some filename) default_chunk_size default_chunk_overlap in
            match r with
            | Raise e => (Raise e, c', dk')
            | Return (chunk_count, already_exists) =>
                if already_exists then
                  (Return {| status := "success";
                             message := "Audio '" ++ filename
                                        ++ "' already exists in database. Skipped processing.";
                             duplicate := true |},
                   c', dk')
                else
                  (Return {| status := "success";
                             message := "Processed " ++ str_int chunk_count
                                        ++ " chunks from audio.";
                             duplicate := false |},
                   c', dk')
            end
      end
  end.

(** [handlers.video_handler.process_video] *)
Definition process_video (env : UploadEnv) (file_bytes filename : string)
  (video_collection : FAISSCollection) (dk : Disk)
  : outcome UploadReply * FAISSCollection * Disk :=
  match tmp_write env with
  | Some e => (Raise e, video_collection, dk)
  | None =>
      match transcribe_audio env file_bytes with
      | Raise e => (Raise e, video_collection, dk)
      | Return transcript =>
          if negb (PyStr.truthy transcript) then
            (Return {| status := "error";
                       message := "Could not transcribe video. Ensure audio content exists and try uploading a different video.";
                       duplicate := false |},
             video_collection, dk)
          else if negb (PyStr.truthy (PyStr.strip transcript)) then
            (Return {| status := "error";
                       message := "No speech detected in video file";
                       duplicate := false |},
             video_collection, dk)
          else
            let '(r, c', dk') :=
              chunk_and_store (up_io env) transcript video_collection dk
                              (Some filename) default_chunk_size default_chunk_overlap in
            match r with
            | Raise e => (Raise e, c', dk')
            | Return (chunk_count, already_exists) =>
                if already_exists then
                  (Return {| status := "success";
                             message := "Video '" ++ filename
                                        ++ "' already exists in database. Skipped processing.";
                             duplicate := true |},
                   c', dk')
                else
                  (Return {| status := "success";
                             message := "Processed " ++ str_int chunk_count
                                        ++ " chunks from video.";
                             duplicate := false |},
                   c', dk')
            end
      end
  end.

(** What an upload may have done, by its result: [stored n] is the message
    of an upload that stored [n] chunks. *)
Definition upload_effect (stored : Z -> string) (filename : string)
  (c : FAISSCollection) (dk : Disk)
  (result : outcome UploadReply * FAISSCollection * Disk) : Prop :=
  let '(res, c1, dk1) := result in
  match res with
  | Raise _ => c1 = c /\ dk1 = dk
  | Return r =>
      (status r = "error" /\ duplicate r = false /\ c1 = c /\ dk1 = dk)
      \/ (status r = "success" /\ duplicate r = true /\ c1 = c /\ dk1 = dk
          /\ source_exists c (Some filename) = true)
      \/ (status r = "success" /\ duplicate r = false
          /\ source_exists c (Some filename) = false
          /\ exists n, message r = stored n /\ 0 <= n /\ count c1 = count c + n)
  end.

End Handlers.

(** ** Views of a collection used in the statements *)

Section Views.
Context {VS : VectorSpace}.

(** The stored entries, position by position: id, document, metadata. *)
Definition entries (c : FAISSCollection)
  : list (string * string * gmap string string) :=
  zip (zip (ids c) (documents c)) (metadatas c).

(** The dictionary [_persist] pickles for a collection. *)
Definition pickle_of (c : FAISSCollection) : Pickle :=
  {| pk_documents := documents c; pk_metadatas := metadatas c; pk_ids := ids c |}.

End Views.

(** ** Concrete collaborators

    Integer vectors under the squared Euclidean distance, a model that
    embeds a text as its length in the first of 384 coordinates, and a
    splitter for texts that fit in one chunk. *)
Module Demo.

Fixpoint sqdist (a b : list Z) : Z :=
  match a, b with
  | x :: a', y :: b' => (x - y) * (x - y) + sqdist a' b'
  | _, _ => 0
  end.

#[local] Instance space : VectorSpace := {
  vec := list Z;
  vdim := @length Z;
  distance := Z;
  l2 := sqdist;
  dle := Z.leb
}.

Definition embed (text : string) : list Z :=
  Z.of_nat (String.length text) :: repeat 0 383.

#[local] Instance model : EmbeddingModel := {
  encode texts := Return (map embed texts)
}.

(** The splitters of langchain_text_splitters on a text that fits in one
    chunk and has no surrounding whitespace: no chunk for the empty text,
    the text itself otherwise. *)
#[local] Instance splitter : TextSplitter := {
  split_text _ _ text :=
    match text with
    | EmptyString => Return []
    | _ => Return [text]
    end
}.

Definition uuids (n : nat) : string :=
  "uuid-" ++ String (ascii_of_nat (48 + n)) EmptyString.

Definition io_ok : IOEnv :=
  {| makedirs_ok := true; write_index := WriteOk; write_meta := WriteOk;
     uuid4 := uuids |}.

(** The persist directory cannot be written. *)
Definition io_readonly : IOEnv :=
  {| makedirs_ok := true; write_index := WriteFailsBefore;
     write_meta := WriteFailsBefore; uuid4 := uuids |}.

(** The index file is written, the metadata file is not. *)
Definition io_meta_fails : IOEnv :=
  {| makedirs_ok := true; write_index := WriteOk;
     write_meta := WriteFailsBefore; uuid4 := uuids |}.

Definition no_disk : Disk := {| index_file := None; meta_file := None |}.

Definition fresh : FAISSCollection := __init__ "chat_pdf_context" "faiss_db" no_disk.

(** One upload of a short text from [a.pdf]. *)
Definition first_upload : outcome (Z * bool) * FAISSCollection * Disk :=
  chunk_and_store io_ok "hello world" fresh no_disk (Some "a.pdf")
                  default_chunk_size default_chunk_overlap.
Definition stored : FAISSCollection := snd (fst first_upload).
Definition stored_disk : Disk := snd first_upload.

(** A second [add] whose metadata file cannot be written, and the
    collection built from the files after a restart. *)
Definition second_add : outcome unit * FAISSCollection * Disk :=
  add io_meta_fails stored stored_disk ["uuid-1"] (Some ["second text"])
      (Some [{[ "source" := "b.pdf" ]}]).
Definition restarted : FAISSCollection :=
  __init__ "chat_pdf_context" "faiss_db" (snd second_add).

(** Uploads without a usable source. *)
Definition upload_empty_source (c : FAISSCollection) (dk : Disk)
  : outcome (Z * bool) * FAISSCollection * Disk :=
  chunk_and_store io_ok "hello world" c dk (Some "")
                  default_chunk_size default_chunk_overlap.
Definition upload_no_source : outcome (Z * bool) * FAISSCollection * Disk :=
  chunk_and_store io_ok "hello world" fresh no_disk None
                  default_chunk_size default_chunk_overlap.

(** Three documents of lengths 1, 3 and 2, and the answer to a query of
    length 2. *)
Definition library : FAISSCollection :=
  snd (fst (add io_ok fresh no_disk ["id-a"; "id-c"; "id-b"]
                (Some ["a"; "ccc"; "bb"]) None)).
Definition no_answer : QueryResult :=
  {| q_documents := []; q_distances := []; q_metadatas := [] |}.
Definition library_answer : QueryResult :=
  match query library ["xx"] 5 with
  | Return r => r
  | Raise _ => no_answer
  end.

(** What [query] answers on [stored] for the query [hello]. *)
Definition stored_answer : QueryResult :=
  @Build_QueryResult space [["hello world"]] [[36]] [[{[ "source" := "a.pdf" ]}]].

(** A collection object that holds one entry and finds nothing. *)
Definition silent : Collection unit := {|
  coll_count := fun _ => Return 1;
  coll_query := fun _ _ _ =>
    Return {| q_documents := [[]]; q_distances := [[]]; q_metadatas := [[]] |}
|}.

Definition four_fruits : string :=
  "red fruit" ++ PyStr.nl ++ "green fruit" ++ PyStr.nl
  ++ "blue fruit" ++ PyStr.nl ++ "ripe fruit".

(** Five documents of lengths 1, 3, 2, 5 and 4, and what [query] answers
    when asked for four results for a query of length 2. *)
Definition shelf : FAISSCollection :=
  snd (fst (add io_ok fresh no_disk ["id-a"; "id-c"; "id-b"; "id-e"; "id-d"]
                (Some ["a"; "ccc"; "bb"; "eeeee"; "dddd"]) None)).
Definition shelf_answer : QueryResult :=
  @Build_QueryResult space [["bb"; "a"; "ccc"; "dddd"]] [[0; 1; 1; 4]]
                     [[∅; ∅; ∅; ∅]].

(** The first [add] on a fresh collection. *)
Definition first_add : outcome unit * FAISSCollection * Disk :=
  add io_ok fresh no_disk ["uuid-0"] (Some ["hello world"])
      (Some [{[ "source" := "a.pdf" ]}]).
Definition added : FAISSCollection := snd (fst first_add).
Definition added_disk : Disk := snd first_add.

(** Files written for an index of dimension 3, and the collection
    constructed from them: the model's rows of 384 coordinates do not fit. *)
Definition narrow_disk : Disk :=
  {| index_file := Some (Content {| d := 3; xb := [] |});
     meta_file := Some (Content {| pk_documents := []; pk_metadatas := [];
                                   pk_ids := [] |}) |}.
Definition narrow : FAISSCollection := __init__ "chat_pdf_context" "faiss_db" narrow_disk.

(** Uploads: a recording with speech, and a silent one. *)
Definition speech : UploadEnv :=
  {| up_io := io_ok; tmp_write := None;
     transcribe_audio := fun _ => Return "good morning everyone" |}.
Definition silence : UploadEnv :=
  {| up_io := io_ok; tmp_write := None;
     transcribe_audio := fun _ => Return "   " |}.

Definition first_talk : outcome UploadReply * FAISSCollection * Disk :=
  process_audio speech "RIFF" "talk.wav" fresh no_disk.
Definition first_clip : outcome UploadReply * FAISSCollection * Disk :=
  process_video speech "ftyp" "clip.mp4" fresh no_disk.
Definition talk_stored : FAISSCollection := snd (fst first_talk).
Definition talk_disk : Disk := snd first_talk.

(** A chunk with a backslash, quotes and a newline. *)
Definition quoted_chunk : string :=
  "say " ++ String dquote "hi" ++ String dquote (String backslash EmptyString)
  ++ PyStr.nl ++ "bye".

End Demo.

Definition fruit_text : string :=
  "apples are red" ++ PyStr.nl ++ "bananas are yellow" ++ PyStr.nl ++ "cars are fast".

Definition fruit_answer : string :=
  "apples are red" ++ PyStr.nl ++ "bananas are yellow".

(** ** Properties of [FAISSCollection] *)

Section CollectionProperties.
Context {VS : VectorSpace} {EM : EmbeddingModel} {TS : TextSplitter}.

Lemma _persist_returns env c dk : fst (_persist env c dk) = Return tt.
Proof.
  unfold _persist, _persist_body.
  destruct (makedirs_ok env); simpl; [|reflexivity].
  destruct (write_index env); simpl; try reflexivity.
  destruct (write_meta env); reflexivity.
Qed.

Lemma _persist_all_ok env c dk :
  makedirs_ok env = true -> write_index env = WriteOk -> write_meta env = WriteOk ->
  snd (_persist env c dk) =
    {| index_file := Some (Content (index c));
       meta_file := Some (Content {| pk_documents := documents c;
                                     pk_metadatas := metadatas c;
                                     pk_ids := ids c |}) |}.
Proof.
  intros Hm Hi Hw. unfold _persist, _persist_body. rewrite Hm, Hi, Hw. reflexivity.
Qed.

Lemma index_add_ntotal ix rows ix' :
  index_add ix rows = Return ix' -> ntotal ix' = (ntotal ix + length rows)%nat.
Proof.
  unfold index_add. destruct (forallb _ rows); [|discriminate].
  intros [= <-]. unfold ntotal. simpl. apply length_app.
Qed.

(** The four outcomes of [add]: nothing to add, the model raised, the
    index raised, or the entries were appended and [_persist] was run. *)
Lemma add_cases env c dk ids_ documents_ metadatas_ :
  (truthy_list documents_ = false
   /\ add env c dk ids_ documents_ metadatas_ = (Return tt, c, dk))
  \/ (exists docs e, documents_ = Some docs /\ encode docs = Raise e
      /\ add env c dk ids_ documents_ metadatas_ = (Raise e, c, dk))
  \/ (exists docs rows e, documents_ = Some docs /\ encode docs = Return rows
      /\ index_add (index c) rows = Raise e
      /\ add env c dk ids_ documents_ metadatas_ = (Raise e, c, dk))
  \/ (exists docs rows ix c',
      documents_ = Some docs /\ docs <> []
      /\ encode docs = Return rows
      /\ index_add (index c) rows = Return ix
      /\ c' = {| name := name c; persist_dir := persist_dir c;
                 dimension := dimension c; index := ix;
                 documents := documents c ++ docs;
                 metadatas := metadatas c ++
                              (if truthy_list metadatas_
                               then default [] metadatas_
                               else map (fun _ => ∅) docs);
                 ids := ids c ++ ids_ |}
      /\ add env c dk ids_ documents_ metadatas_
         = (Return tt, c', snd (_persist env c' dk))).
Proof.
  unfold add. destruct documents_ as [[|doc docs]|]; [left; done| |left; done].
  right. destruct (encode (doc :: docs)) as [rows|e] eqn:He; simpl.
  2:{ left. eauto 6. }
  right. destruct (index_add (index c) rows) as [ix|e] eqn:Hx; simpl.
  2:{ left. eauto 8. }
  right.
  set (c' := Build_FAISSCollection _ _ _ _ _ _ _).
  exists (doc :: docs), rows, ix, c'.
  do 4 (split; [done|]). split.
  - subst c'. f_equal. f_equal. by destruct metadatas_ as [[|m ms]|].
  - pose proof (_persist_returns env c' dk) as Hp.
    destruct (_persist env c' dk) as [r dk']. simpl in *. subst r. reflexivity.
Qed.

(** C10. [add] with an empty or a missing [documents] argument returns
    normally and changes neither the collection (index, ids, documents,
    metadatas) nor the persisted files, whatever [ids] and [metadatas]
    are. *)
Theorem add_without_documents_is_noop env c dk ids_ metadatas_ :
  add env c dk ids_ (Some []) metadatas_ = (Return tt, c, dk)
  /\ add env c dk ids_ None metadatas_ = (Return tt, c, dk).
Proof. split; reflexivity. Qed.

Lemma I1_create_new_index nm dir : I1 (_create_new_index nm dir).
Proof. repeat split. Qed.

Lemma I1_init nm dir dk : disk_I1 dk -> I1 (__init__ nm dir dk).
Proof.
  unfold __init__, _load_or_create, disk_I1.
  destruct (index_file dk) as [[|ix]|], (meta_file dk) as [[|pk]|];
    try (intros _; apply I1_create_new_index).
  intros (? & ? & ?). repeat split; assumption.
Qed.

Lemma I1_add {EML : EmbeddingModelLaws} env c dk ids_ documents_ metadatas_ :
  I1 c -> add_precondition ids_ documents_ metadatas_ ->
  I1 (snd (fst (add env c dk ids_ documents_ metadatas_))).
Proof.
  intros (Hi & Hd & Hm) Hpre.
  destruct (add_cases env c dk ids_ documents_ metadatas_)
    as [[_ ->]|[(docs & e & _ & _ & ->)|[(docs & rows & e & _ & _ & _ & ->)
       |(docs & rows & ix & c' & -> & Hne & He & Hx & -> & ->)]]];
    simpl; try (repeat split; assumption).
  apply encode_length in He. apply index_add_ntotal in Hx.
  destruct Hpre as [Hids Hms].
  unfold I1; simpl. rewrite !length_app, Hx, He.
  assert (length (if truthy_list metadatas_ then default [] metadatas_
                  else map (fun _ : string => (∅ : gmap string string)) docs)
          = length docs) as ->.
  { destruct metadatas_ as [[|m ms]|]; simpl in *;
      rewrite ?length_map; try reflexivity; try assumption. }
  lia.
Qed.

Lemma disk_I1_add {EML : EmbeddingModelLaws} env c dk ids_ documents_ metadatas_ :
  I1 c -> add_precondition ids_ documents_ metadatas_ -> disk_I1 dk ->
  makedirs_ok env = true -> write_index env = WriteOk -> write_meta env = WriteOk ->
  disk_I1 (snd (add env c dk ids_ documents_ metadatas_)).
Proof.
  intros HI Hpre Hdk Hm Hi Hw.
  pose proof (I1_add env c dk ids_ documents_ metadatas_ HI Hpre) as HI'.
  destruct (add_cases env c dk ids_ documents_ metadatas_)
    as [[_ Ha]|[(docs & e & _ & _ & Ha)|[(docs & rows & e & _ & _ & _ & Ha)
       |(docs & rows & ix & c' & _ & _ & _ & _ & _ & Ha)]]];
    rewrite Ha in *; simpl in *; try assumption.
  rewrite _persist_all_ok by assumption. exact HI'.
Qed.

(** C3, as amended. A collection built on absent or unreadable files, or
    on files whose contents have one size, satisfies I1; [add] keeps I1
    when [len(ids) == len(documents) == len(metadatas)] (or [metadatas] is
    missing) and the model returns one row per document, whether it
    returns or raises; and when both files are written the persisted
    state has one size again. [get], [query] and [count] return a value
    and leave the collection as it is. *)
Theorem I1_invariant {EML : EmbeddingModelLaws} :
  (forall nm dir, I1 (_create_new_index nm dir))
  /\ (forall nm dir dk, disk_I1 dk -> I1 (__init__ nm dir dk))
  /\ (forall env c dk ids_ documents_ metadatas_,
        I1 c -> add_precondition ids_ documents_ metadatas_ ->
        let '(_, c', dk') := add env c dk ids_ documents_ metadatas_ in
        I1 c'
        /\ (disk_I1 dk -> makedirs_ok env = true ->
            write_index env = WriteOk -> write_meta env = WriteOk ->
            disk_I1 dk')).
Proof.
  split; [exact I1_create_new_index|]. split; [exact I1_init|].
  intros env c dk ids_ documents_ metadatas_ HI Hpre.
  pose proof (I1_add env c dk ids_ documents_ metadatas_ HI Hpre) as Hmem.
  pose proof (disk_I1_add env c dk ids_ documents_ metadatas_ HI Hpre) as Hdisk.
  destruct (add env c dk ids_ documents_ metadatas_) as [[r c'] dk'].
  simpl in *. split; [exact Hmem|]. exact Hdisk.
Qed.

(** [add] returns normally whenever the model and the index accept the
    batch: no file-system failure reaches the caller. *)
Lemma add_returns_despite_io env c dk ids_ docs metadatas_ rows ix :
  encode docs = Return rows -> index_add (index c) rows = Return ix ->
  fst (fst (add env c dk ids_ (Some docs) metadatas_)) = Return tt.
Proof.
  intros He Hx.
  destruct (add_cases env c dk ids_ (Some docs) metadatas_)
    as [[_ ->]|[(docs' & e & [= <-] & He' & _)|[(docs' & rows' & e & [= <-] & He' & Hx' & _)
       |(docs' & rows' & ix' & c' & _ & _ & _ & _ & _ & ->)]]]; try reflexivity.
  - congruence.
  - rewrite He in He'. injection He' as <-. congruence.
Qed.

(** *** [get] and the duplicate check *)

Lemma bind_Return {A B} (a : A) (k : A -> outcome B) : (Return a ≫= k) = k a.
Proof. reflexivity. Qed.

Lemma where_matches_singleton k v (meta : gmap string string) :
  where_matches {[ k := v ]} meta = bool_decide (meta !! k = Some v).
Proof.
  unfold where_matches. rewrite map_to_list_singleton. simpl.
  apply andb_true_r.
Qed.

(** On aligned lists the loop of [get] does not raise and keeps exactly
    the matching dictionaries, in order. *)
Lemma get_loop_aligned c w metas : forall i,
  (i + length metas <= length (ids c))%nat ->
  (i + length metas <= length (documents c))%nat ->
  exists res, get_loop c w i metas = Return res
              /\ map snd res = List.filter (where_matches w) metas.
Proof.
  induction metas as [|meta rest IH]; intros i Hi Hd; simpl in *.
  - exists []. split; reflexivity.
  - destruct (IH (S i)) as (more & Hmore & Hsnd); [lia|lia|].
    destruct (where_matches w meta).
    + destruct (lookup_lt_is_Some_2 (ids c) i) as [id Hid]; [lia|].
      destruct (lookup_lt_is_Some_2 (documents c) i) as [doc Hdoc]; [lia|].
      unfold getitem. rewrite Hid, Hdoc, !bind_Return, Hmore, bind_Return.
      eexists. split; [reflexivity|]. simpl. by rewrite Hsnd.
    + exists more. split; assumption.
Qed.

Lemma source_exists_found c src meta :
  length (metadatas c) = length (ids c) ->
  length (metadatas c) = length (documents c) ->
  PyStr.truthy src = true ->
  meta ∈ metadatas c -> meta !! "source" = Some src ->
  source_exists c (Some src) = true.
Proof.
  intros Hi Hd Ht Hin Hsrc. unfold source_exists, get. rewrite Ht.
  rewrite bool_decide_eq_false_2 by apply map_non_empty_singleton.
  destruct (get_loop_aligned c {[ "source" := src ]} (metadatas c) 0)
    as (res & -> & Hres); [lia|lia|].
  rewrite bind_Return. simpl. unfold len. rewrite length_map.
  assert (In meta (map snd res)) as Hmem.
  { rewrite Hres. apply filter_In. split.
    - by apply list_elem_of_In.
    - rewrite where_matches_singleton. by apply bool_decide_eq_true_2. }
  destruct res; [destruct Hmem|]. reflexivity.
Qed.

(** What a call of [chunk_and_store] that returns has done: found the
    source, or split the text and appended one entry per chunk. *)
Lemma chunk_and_store_returns env text c dk source cs co n b c1 dk1 :
  chunk_and_store env text c dk source cs co = (Return (n, b), c1, dk1) ->
  (source_exists c source = true /\ n = 0 /\ b = true /\ c1 = c /\ dk1 = dk)
  \/ (exists chunks,
        source_exists c source = false
        /\ split_text cs co text = Return chunks
        /\ n = len chunks /\ b = false
        /\ documents c1 = (documents c ++ chunks)%list
        /\ metadatas c1
           = (metadatas c ++ map (fun _ => source_metadata source) chunks)%list
        /\ ids c1 = (ids c ++ map (uuid4 env) (seq 0 (length chunks)))%list).
Proof.
  unfold chunk_and_store. destruct (source_exists c source).
  { intros [= <- <- <- <-]. left. done. }
  destruct (split_text cs co text) as [chunks|e]; [|discriminate].
  intros Hrun. right. exists chunks. split; [done|]. split; [done|].
  destruct (add_cases env c dk (map (uuid4 env) (seq 0 (length chunks)))
              (Some chunks) (Some (map (fun _ => source_metadata source) chunks)))
    as [[Hemp Ha]|[(docs & e & _ & _ & Ha)|[(docs & rows & e & _ & _ & _ & Ha)
       |(docs & rows & ix & c' & [= <-] & Hne & _ & _ & -> & Ha)]]];
    rewrite Ha in Hrun; simpl in Hrun; try discriminate.
  - injection Hrun as <- <- <- <-.
    destruct chunks; [|discriminate]. simpl. rewrite !app_nil_r. done.
  - injection Hrun as <- <- <- <-. simpl.
    destruct chunks; [done|]. done.
Qed.

(** C1, as amended. When the collection satisfies I1, the source is a
    non-empty string and a first call returned having found the source or
    stored at least one chunk, a second call with this source (for the
    same or any other text) returns [(0, True)] and leaves the collection,
    hence [count()], and the persisted files as they were. *)
Theorem readd_same_source env1 env2 text1 text2 c dk src cs1 co1 cs2 co2 n b c1 dk1 :
  I1 c -> PyStr.truthy src = true ->
  chunk_and_store env1 text1 c dk (Some src) cs1 co1 = (Return (n, b), c1, dk1) ->
  b = true \/ 0 < n ->
  exists c2 dk2,
    chunk_and_store env2 text2 c1 dk1 (Some src) cs2 co2 = (Return (0, true), c2, dk2)
    /\ c2 = c1 /\ dk2 = dk1 /\ count c2 = count c1.
Proof.
  intros (Hi & Hd & _) Ht Hrun Hstored.
  assert (source_exists c1 (Some src) = true) as Hex.
  { apply chunk_and_store_returns in Hrun
      as [(Hex & _ & _ & -> & _)|(chunks & _ & _ & -> & -> & Hdocs & Hmetas & Hids)];
      [assumption|].
    destruct Hstored as [|Hpos]; [discriminate|].
    destruct chunks as [|chunk chunks]; [unfold len in Hpos; simpl in Hpos; lia|].
    apply source_exists_found with (meta := {[ "source" := src ]}).
    - rewrite Hmetas, Hids, !length_app, !length_map, length_seq. lia.
    - rewrite Hmetas, Hdocs, !length_app, !length_map. lia.
    - assumption.
    - rewrite Hmetas. simpl. rewrite Ht. apply elem_of_app. right. left.
    - apply lookup_singleton_eq. }
  exists c1, dk1. unfold chunk_and_store. rewrite Hex. done.
Qed.

(** C9, as amended. A call of [chunk_and_store] that returns [(n, False)]
    has appended [n] dictionaries: with a non-empty source each is exactly
    [{"source": source}]; with a missing source or the empty string as
    source each is empty and has no key [source]. [add] itself stores the
    dictionaries it is given, and empty ones when [metadatas] is missing or
    empty. *)
Theorem stored_metadata_has_source :
  (forall env text c dk source cs co n c1 dk1,
      chunk_and_store env text c dk source cs co = (Return (n, false), c1, dk1) ->
      exists new,
        metadatas c1 = (metadatas c ++ new)%list
        /\ len new = n
        /\ (forall src, source = Some src -> PyStr.truthy src = true ->
              Forall (fun meta => meta = {[ "source" := src ]}
                                  /\ meta !! "source" = Some src) new)
        /\ (source = None \/ source = Some EmptyString ->
              Forall (fun meta => meta = ∅ /\ meta !! "source" = None) new))
  /\ (forall env c dk ids_ docs metadatas_ c' dk',
        docs <> [] ->
        add env c dk ids_ (Some docs) metadatas_ = (Return tt, c', dk') ->
        metadatas c'
        = (metadatas c ++ (if truthy_list metadatas_ then default [] metadatas_
                           else map (fun _ => ∅) docs))%list).
Proof.
  split.
  - intros env text c dk source cs co n c1 dk1 Hrun.
    apply chunk_and_store_returns in Hrun
      as [(_ & _ & [=] & _)|(chunks & _ & _ & -> & _ & _ & Hmetas & _)].
    exists (map (fun _ => source_metadata source) chunks).
    split; [assumption|]. split; [unfold len; by rewrite length_map|]. split.
    + intros src -> Ht. apply Forall_forall. intros meta Hin.
      apply list_elem_of_In, in_map_iff in Hin as (? & <- & _).
      simpl. rewrite Ht. split; [reflexivity|apply lookup_singleton_eq].
    + intros Hsrc. apply Forall_forall. intros meta Hin.
      apply list_elem_of_In, in_map_iff in Hin as (? & <- & _).
      destruct Hsrc as [-> | ->]; simpl; (split; [reflexivity|apply lookup_empty]).
  - intros env c dk ids_ docs metadatas_ c' dk' Hne Hrun.
    destruct (add_cases env c dk ids_ (Some docs) metadatas_)
      as [[Hemp _]|[(? & e & _ & _ & Ha)|[(? & rows & e & _ & _ & _ & Ha)
         |(? & rows & ix & c0 & [= <-] & _ & _ & _ & -> & Ha)]]];
      try (rewrite Ha in Hrun; discriminate).
    + destruct docs; [done|discriminate].
    + rewrite Ha in Hrun. injection Hrun as <- _. reflexivity.
Qed.

(** [add] itself stores the dictionaries it is given, and empty ones when
    it is given none. *)
Lemma add_stores_metadatas env c dk ids_ docs metadatas_ c' dk' :
  docs <> [] ->
  add env c dk ids_ (Some docs) metadatas_ = (Return tt, c', dk') ->
  metadatas c' = (metadatas c ++
                  (if truthy_list metadatas_ then default [] metadatas_
                   else map (fun _ => ∅) docs))%list.
Proof.
  intros Hne Hrun.
  destruct (add_cases env c dk ids_ (Some docs) metadatas_)
    as [[Hemp _]|[(? & e & _ & _ & Ha)|[(? & rows & e & _ & _ & _ & Ha)
       |(? & rows & ix & c0 & [= <-] & _ & _ & _ & -> & Ha)]]];
    try (rewrite Ha in Hrun; discriminate).
  - destruct docs; [done|discriminate].
  - rewrite Ha in Hrun. injection Hrun as <- _. reflexivity.
Qed.

End CollectionProperties.

(** ** Properties of [keyword_search] *)

Section KeywordSearch.

Lemma py_sum_ones {A} (l : list A) : py_sum (map (fun _ => 1) l) = len l.
Proof.
  unfold py_sum, len.
  enough (forall a, fold_left Z.add (map (fun _ : A => 1) l) a = a + Z.of_nat (length l))
    as Hgen by (rewrite Hgen; lia).
  induction l as [|x l IH]; intros a; simpl.
  - lia.
  - rewrite IH. lia.
Qed.

Lemma line_score_counts query_lower line :
  line_score query_lower line
  = len (List.filter (fun word => PyStr.contains (PyStr.lower line) word)
                     (PyStr.split_ws query_lower)).
Proof. unfold line_score, keyword_hits. apply py_sum_ones. Qed.

Lemma lstrip_empty s : PyStr.lstrip s = EmptyString <-> PyStr.all_space s = true.
Proof.
  induction s as [|c s IH]; simpl; [done|].
  destruct (PyStr.isspace c); simpl; [exact IH|]. split; discriminate.
Qed.

Lemma rstrip_empty s : PyStr.rstrip s = EmptyString <-> PyStr.all_space s = true.
Proof.
  induction s as [|c s IH]; simpl; [done|].
  destruct (PyStr.rstrip s) as [|c' r]; destruct (PyStr.isspace c); simpl.
  - split; [intros _; by apply IH|done].
  - split; discriminate.
  - split; [discriminate|]. intros Hs. apply IH in Hs. discriminate.
  - split; discriminate.
Qed.

Lemma lstrip_all_space s : PyStr.all_space (PyStr.lstrip s) = PyStr.all_space s.
Proof.
  induction s as [|c s IH]; simpl; [done|].
  destruct (PyStr.isspace c) eqn:Hc; simpl; [exact IH|]. by rewrite Hc.
Qed.

(** [len(line.strip()) > 0] holds exactly for the lines that are not blank. *)
Lemma strip_nonblank line :
  (0 <? Z.of_nat (String.length (PyStr.strip line))) = negb (PyStr.all_space line).
Proof.
  unfold PyStr.strip. rewrite <- (lstrip_all_space line).
  destruct (PyStr.all_space (PyStr.lstrip line)) eqn:Hs; simpl.
  - apply rstrip_empty in Hs. by rewrite Hs.
  - destruct (PyStr.rstrip (PyStr.lstrip line)) eqn:Hr; [|reflexivity].
    apply rstrip_empty in Hr. congruence.
Qed.

Lemma score_lines_filter query_lower lines :
  score_lines query_lower lines
  = map (fun line => (line_score query_lower line, line))
        (List.filter (fun line => negb (PyStr.all_space line)
                                  && (0 <? line_score query_lower line))
                     lines).
Proof.
  induction lines as [|line rest IH]; simpl; [done|].
  rewrite strip_nonblank.
  destruct (PyStr.all_space line); simpl; [exact IH|].
  destruct (0 <? line_score query_lower line); simpl; [by rewrite IH|exact IH].
Qed.

Lemma insert_desc_perm x l : Permutation (insert_desc x l) (x :: l).
Proof.
  induction l as [|y ys IH]; simpl; [done|].
  destruct (fst y <=? fst x); [done|].
  rewrite IH. apply perm_swap.
Qed.

Lemma sort_desc_perm l : Permutation (sort_desc l) l.
Proof.
  induction l as [|x xs IH]; simpl; [done|].
  rewrite insert_desc_perm. by constructor.
Qed.

Lemma insert_desc_sorted x l :
  StronglySorted score_ge l -> StronglySorted score_ge (insert_desc x l).
Proof.
  induction l as [|y ys IH]; intros Hs; simpl.
  - repeat constructor.
  - inversion Hs as [|? ? Hys Hall]; subst.
    destruct (fst y <=? fst x) eqn:Hle.
    + apply Z.leb_le in Hle. constructor; [assumption|].
      constructor; [exact Hle|].
      eapply Forall_impl; [exact Hall|]. unfold score_ge. intros; simpl in *; lia.
    + apply Z.leb_gt in Hle. constructor; [by apply IH|].
      apply Forall_forall. intros z Hz.
      apply list_elem_of_In in Hz.
      apply (Permutation_in _ (insert_desc_perm x ys)) in Hz as [<-|Hz].
      * unfold score_ge. lia.
      * rewrite Forall_forall in Hall. apply Hall. by apply list_elem_of_In.
Qed.

Lemma sort_desc_sorted l : StronglySorted score_ge (sort_desc l).
Proof.
  induction l as [|x xs IH]; simpl; [constructor|]. by apply insert_desc_sorted.
Qed.

(** Stability: among the entries of one score, the order is the order of
    encounter. *)
Lemma insert_desc_stable s x l :
  List.filter (fun e => fst e =? s) (insert_desc x l)
  = List.filter (fun e => fst e =? s) (x :: l).
Proof.
  induction l as [|y ys IH]; [done|]. simpl insert_desc.
  destruct (fst y <=? fst x) eqn:Hle; [done|]. apply Z.leb_gt in Hle.
  change (List.filter (fun e : Z * string => fst e =? s) (y :: insert_desc x ys))
    with (if fst y =? s then y :: List.filter (fun e : Z * string => fst e =? s) (insert_desc x ys)
          else List.filter (fun e : Z * string => fst e =? s) (insert_desc x ys)).
  rewrite IH. simpl.
  destruct (fst x =? s) eqn:Hx, (fst y =? s) eqn:Hy; try reflexivity. lia.
Qed.

Lemma sort_desc_stable s l :
  List.filter (fun e => fst e =? s) (sort_desc l) = List.filter (fun e => fst e =? s) l.
Proof.
  induction l as [|x xs IH]; [done|]. simpl sort_desc.
  rewrite insert_desc_stable. simpl. by rewrite IH.
Qed.

Lemma keyword_search_unfold full_text query top_k :
  keyword_search full_text query top_k
  = PyStr.join PyStr.nl
      (map snd (slice_to top_k
         (sort_desc (score_lines (PyStr.lower query)
                                 (PyStr.split_on (ascii_of_nat 10) full_text))))).
Proof.
  unfold keyword_search, keyword_search_body.
  destruct (score_lines _ _) as [|e es] eqn:Hs; simpl; [|reflexivity].
  unfold slice_to. destruct (0 <=? top_k); by rewrite firstn_nil.
Qed.

Lemma slice_to_bound {A} (n : Z) (l : list A) : 0 <= n -> len (slice_to n l) <= n.
Proof.
  intros Hn. unfold slice_to, len.
  destruct (0 <=? n) eqn:Hle; [|lia].
  pose proof (firstn_le_length (Z.to_nat n) l). rewrite length_firstn. lia.
Qed.

Lemma firstn_In_stdlib {A} (n : nat) (l : list A) x : In x (firstn n l) -> In x l.
Proof.
  revert l. induction n as [|n IH]; intros [|y l]; simpl; try tauto.
  intros [->|Hx]; [by left|right; by apply IH].
Qed.

Lemma slice_to_firstn {A} (n : Z) (l : list A) :
  0 <= n -> slice_to n l = firstn (Z.to_nat n) l.
Proof. intros Hn. unfold slice_to. destruct (0 <=? n) eqn:Hle; [done|lia]. Qed.

(** C5. [keyword_search] keeps the non-blank lines of the text whose score
    is positive, the score of a line being the number of whitespace-separated
    tokens of the lowercased query that occur in the lowercased line; it
    ranks them by score, highest first, entries of one score staying in the
    order of encounter; it returns the first [top_k] of them joined with a
    newline. On the three-line fruit text with the query [apples yellow] and
    [top_k = 2] the result is the first two lines in their original order. *)
Theorem keyword_search_ranking full_text query top_k :
  let query_lower := PyStr.lower query in
  let lines := PyStr.split_on (ascii_of_nat 10) full_text in
  let scored := score_lines query_lower lines in
  (forall line,
      line_score query_lower line
      = len (List.filter (fun word => PyStr.contains (PyStr.lower line) word)
                         (PyStr.split_ws query_lower)))
  /\ scored = map (fun line => (line_score query_lower line, line))
                  (List.filter (fun line => negb (PyStr.all_space line)
                                            && (0 <? line_score query_lower line))
                               lines)
  /\ Permutation (sort_desc scored) scored
  /\ StronglySorted (fun a b => fst b <= fst a) (sort_desc scored)
  /\ (forall s, List.filter (fun e => fst e =? s) (sort_desc scored)
                = List.filter (fun e => fst e =? s) scored)
  /\ keyword_search full_text query top_k
     = PyStr.join PyStr.nl (map snd (slice_to top_k (sort_desc scored)))
  /\ score_lines (PyStr.lower "apples yellow")
                 (PyStr.split_on (ascii_of_nat 10) fruit_text)
     = [(1, "apples are red"); (1, "bananas are yellow")]
  /\ keyword_search fruit_text "apples yellow" 2 = fruit_answer.
Proof.
  intros query_lower lines scored.
  split; [intros line; apply line_score_counts|].
  split; [apply score_lines_filter|].
  split; [apply sort_desc_perm|].
  split; [apply sort_desc_sorted|].
  split; [intros s; apply sort_desc_stable|].
  split; [apply keyword_search_unfold|].
  split; vm_compute; reflexivity.
Qed.

End KeywordSearch.

(** ** Properties of [retrieve_context] *)

Section RetrieveContext.
Context {VS : VectorSpace} {C : Type} {Coll : Collection C}.

(** The runs of [retrieve_context], by what [count] and [query] do. *)
Lemma retrieve_context_cases query_ (collection : C) n_results fallback_text :
  (raises (coll_count collection)
   /\ retrieve_context query_ collection n_results fallback_text = ("", "error"))
  \/ (coll_count collection = Return 0
      /\ retrieve_context query_ collection n_results fallback_text = ("", "none"))
  \/ (exists count_, coll_count collection = Return count_ /\ count_ <> 0
      /\ ((raises (coll_query collection [query_] (Z.min (n_results * 2) count_))
           /\ retrieve_context query_ collection n_results fallback_text = ("", "error"))
          \/ (exists results,
                coll_query collection [query_] (Z.min (n_results * 2) count_)
                = Return results
                /\ ((q_documents results = []
                     /\ retrieve_context query_ collection n_results fallback_text
                        = ("", "error"))
                    \/ (exists rest, q_documents results = [] :: rest
                        /\ retrieve_context query_ collection n_results fallback_text
                           = keyword_fallback query_ n_results fallback_text)
                    \/ (exists doc docs rest,
                          q_documents results = (doc :: docs) :: rest
                          /\ retrieve_context query_ collection n_results fallback_text
                             = (PyStr.join blank_line (slice_to n_results (doc :: docs)),
                                "semantic")))))).
Proof.
  unfold retrieve_context, retrieve_context_body.
  destruct (coll_count collection) as [count_|e] eqn:Hc; simpl.
  2:{ left. split; [by exists e|done]. }
  right. destruct (count_ =? 0) eqn:H0.
  { apply Z.eqb_eq in H0 as ->. left. done. }
  apply Z.eqb_neq in H0. right. exists count_. do 2 (split; [done|]).
  destruct (coll_query collection [query_] (Z.min (n_results * 2) count_))
    as [results|e] eqn:Hq; simpl.
  2:{ left. split; [by exists e|done]. }
  right. exists results. split; [done|].
  unfold getitem. destruct (q_documents results) as [|[|doc docs] rest]; simpl.
  - left. done.
  - right. left. by exists rest.
  - right. right. by exists doc, docs, rest.
Qed.

Lemma keyword_fallback_method query_ n_results fallback_text :
  snd (keyword_fallback query_ n_results fallback_text) = "keyword"
  \/ keyword_fallback query_ n_results fallback_text = ("", "none").
Proof.
  unfold keyword_fallback. destruct fallback_text as [ft|]; [|by right].
  destruct (PyStr.truthy ft); [|by right].
  destruct (PyStr.truthy (keyword_search ft query_ n_results)); [by left|by right].
Qed.

(** C4. On a collection that is not empty, [retrieve_context] asks
    [query] for [min(n_results * 2, count())] results for the one query
    text; when the first row of documents that comes back is not empty, the
    result is [documents[:n_results]] joined with a blank line, with the
    method [semantic]; for [n_results >= 0] the slice is the first
    [n_results] documents in the order returned. The join puts the two
    newlines between consecutive documents and nowhere else. *)
Theorem retrieve_semantic query_ (collection : C) n_results fallback_text
    count_ results docs rest :
  coll_count collection = Return count_ -> count_ <> 0 ->
  coll_query collection [query_] (Z.min (n_results * 2) count_) = Return results ->
  q_documents results = docs :: rest -> docs <> [] ->
  retrieve_context query_ collection n_results fallback_text
  = (PyStr.join blank_line (slice_to n_results docs), "semantic")
  /\ (0 <= n_results -> slice_to n_results docs = firstn (Z.to_nat n_results) docs)
  /\ blank_line = String (ascii_of_nat 10) (String (ascii_of_nat 10) EmptyString)
  /\ PyStr.join blank_line [] = EmptyString
  /\ (forall doc, PyStr.join blank_line [doc] = doc)
  /\ (forall doc doc' more,
        PyStr.join blank_line (doc :: doc' :: more)
        = doc ++ blank_line ++ PyStr.join blank_line (doc' :: more)).
Proof.
  intros Hc Hne Hq Hd Hdocs.
  split; [|split; [apply slice_to_firstn|repeat split]].
  unfold retrieve_context, retrieve_context_body.
  rewrite Hc. simpl. apply Z.eqb_neq in Hne. rewrite Hne, Hq. simpl.
  unfold getitem. rewrite Hd. simpl. destruct docs; [done|reflexivity].
Qed.

(** C7. [retrieve_context] returns a pair whose method is one of
    [semantic], [keyword], [none] and [error] for every collection, query,
    [n_results] and fallback text; when [count] raises, when [query] raises,
    or when the result has no first row, the pair is [("", "error")];
    [keyword_search] does not raise either. *)
Theorem retrieve_context_total query_ (collection : C) n_results fallback_text :
  (exists context method,
      retrieve_context query_ collection n_results fallback_text = (context, method)
      /\ (method = "semantic" \/ method = "keyword" \/ method = "none"
          \/ method = "error"))
  /\ (forall e,
        retrieve_context_body query_ collection n_results fallback_text = Raise e ->
        retrieve_context query_ collection n_results fallback_text = ("", "error"))
  /\ (raises (coll_count collection) ->
      retrieve_context query_ collection n_results fallback_text = ("", "error"))
  /\ (forall count_,
        coll_count collection = Return count_ -> count_ <> 0 ->
        raises (coll_query collection [query_] (Z.min (n_results * 2) count_)) ->
        retrieve_context query_ collection n_results fallback_text = ("", "error"))
  /\ (forall full_text top_k,
        exists s, keyword_search_body full_text query_ top_k = Return s).
Proof.
  split; [|split; [|split; [|split]]].
  - destruct (retrieve_context_cases query_ collection n_results fallback_text)
      as [[_ ->]|[[_ ->]|(count_ & _ & _ & [[_ ->]|(results & _ &
           [[_ ->]|[(rest & _ & ->)|(doc & docs & rest & _ & ->)]])])]]; eauto 7.
    destruct (keyword_fallback_method query_ n_results fallback_text) as [Hk| ->];
      [|eauto 7].
    destruct (keyword_fallback query_ n_results fallback_text) as [context method].
    simpl in Hk. subst method. eauto 7.
  - intros e He. unfold retrieve_context. by rewrite He.
  - intros [e He]. unfold retrieve_context, retrieve_context_body. by rewrite He.
  - intros count_ Hc Hne [e He].
    unfold retrieve_context, retrieve_context_body.
    rewrite Hc. simpl. apply Z.eqb_neq in Hne. by rewrite Hne, He.
  - intros full_text top_k. unfold keyword_search_body.
    destruct (score_lines _ _); eauto.
Qed.

(** C6, as amended. When [retrieve_context] answers with the method
    [keyword], a fallback text was given and the context is
    [keyword_search(fallback_text, query, top_k=n_results)]: lines of the
    fallback text joined with a newline, at most [n_results] of them for
    [n_results >= 0]. *)
Theorem keyword_fallback_bound query_ (collection : C) n_results fallback_text context :
  retrieve_context query_ collection n_results fallback_text = (context, "keyword") ->
  exists ft lines,
    fallback_text = Some ft
    /\ context = keyword_search ft query_ n_results
    /\ context = PyStr.join PyStr.nl lines
    /\ (0 <= n_results -> len lines <= n_results)
    /\ (forall line, In line lines ->
                     In line (PyStr.split_on (ascii_of_nat 10) ft)).
Proof.
  intros Hrun.
  destruct (retrieve_context_cases query_ collection n_results fallback_text)
    as [[_ He]|[[_ He]|(count_ & _ & _ & [[_ He]|(results & _ &
         [[_ He]|[(rest & _ & He)|(doc & docs & rest & _ & He)]])])]];
    rewrite He in Hrun; try discriminate.
  unfold keyword_fallback in Hrun.
  destruct fallback_text as [ft|]; [|discriminate].
  destruct (PyStr.truthy ft); [|discriminate].
  destruct (PyStr.truthy (keyword_search ft query_ n_results)); [|discriminate].
  injection Hrun as <-.
  set (ranked := sort_desc (score_lines (PyStr.lower query_)
                                        (PyStr.split_on (ascii_of_nat 10) ft))).
  exists ft, (map snd (slice_to n_results ranked)).
  split; [done|]. split; [done|]. split; [apply keyword_search_unfold|]. split.
  - intros Hn. unfold len. rewrite length_map. by apply slice_to_bound.
  - intros line Hin. apply in_map_iff in Hin as ([score line'] & <- & Hin). simpl.
    assert (In (score, line') ranked) as Hr.
    { unfold slice_to in Hin. destruct (0 <=? n_results);
        eapply firstn_In_stdlib; exact Hin. }
    apply (Permutation_in _ (sort_desc_perm _)) in Hr.
    rewrite score_lines_filter in Hr.
    apply in_map_iff in Hr as (l0 & [= _ <-] & Hl). by apply filter_In in Hl as [Hl _].
Qed.

End RetrieveContext.

(** ** Properties of [query] *)

Section QueryProperties.
Context {VS : VectorSpace} {EM : EmbeddingModel} {VSL : VectorSpaceLaws}.

Lemma insert_asc_perm x l : Permutation (insert_asc x l) (x :: l).
Proof.
  induction l as [|y ys IH]; simpl; [done|].
  destruct (dle (snd x) (snd y)); [done|].
  rewrite IH. apply perm_swap.
Qed.

Lemma sort_asc_perm l : Permutation (sort_asc l) l.
Proof.
  induction l as [|x xs IH]; simpl; [done|].
  rewrite insert_asc_perm. by constructor.
Qed.

Lemma insert_asc_sorted x l :
  StronglySorted dist_le l -> StronglySorted dist_le (insert_asc x l).
Proof.
  induction l as [|y ys IH]; intros Hs; simpl.
  - repeat constructor.
  - inversion Hs as [|? ? Hys Hall]; subst.
    destruct (dle (snd x) (snd y)) eqn:Hle.
    + constructor; [assumption|]. constructor; [exact Hle|].
      eapply Forall_impl; [exact Hall|]. unfold dist_le. intros z Hz.
      eapply dle_trans; eassumption.
    + assert (dle (snd y) (snd x) = true) as Hyx.
      { destruct (dle_total (snd x) (snd y)); congruence. }
      constructor; [by apply IH|].
      apply Forall_forall. intros z Hz. apply list_elem_of_In in Hz.
      apply (Permutation_in _ (insert_asc_perm x ys)) in Hz as [<-|Hz].
      * exact Hyx.
      * rewrite Forall_forall in Hall. apply Hall. by apply list_elem_of_In.
Qed.

Lemma sort_asc_sorted l : StronglySorted dist_le (sort_asc l).
Proof.
  induction l as [|x xs IH]; simpl; [constructor|]. by apply insert_asc_sorted.
Qed.

Lemma StronglySorted_firstn {A} (R : A -> A -> Prop) n l :
  StronglySorted R l -> StronglySorted R (firstn n l).
Proof.
  intros Hs. revert n. induction Hs as [|x l Hl IH Hall]; intros [|n]; simpl;
    try constructor; [apply IH|by apply Forall_take].
Qed.

Lemma StronglySorted_map {A B} (f : A -> B) (R1 : A -> A -> Prop)
    (R2 : B -> B -> Prop) l :
  (forall x y, R1 x y -> R2 (f x) (f y)) ->
  StronglySorted R1 l -> StronglySorted R2 (map f l).
Proof.
  intros Hf. induction 1 as [|x l Hl IH Hall]; simpl; constructor; [exact IH|].
  apply Forall_forall. intros y Hy.
  apply list_elem_of_In, in_map_iff in Hy as (z & <- & Hz).
  apply Hf. rewrite Forall_forall in Hall. apply Hall. by apply list_elem_of_In.
Qed.

Lemma row_distances_fst q rows : forall i,
  map fst (row_distances q i rows) = seq i (length rows).
Proof. induction rows as [|v rest IH]; intros i; simpl; [done|]. by rewrite IH. Qed.

Lemma row_distances_In q rows : forall i j dist,
  In (j, dist) (row_distances q i rows) ->
  exists v, (i <= j)%nat /\ rows !! (j - i)%nat = Some v /\ dist = l2 q v.
Proof.
  induction rows as [|v rest IH]; intros i j dist; simpl; [done|].
  intros [[= <- <-]|Hin].
  - exists v. rewrite Nat.sub_diag. done.
  - apply IH in Hin as (w & Hle & Hw & ->). exists w.
    replace (j - i)%nat with (S (j - S i)) by lia. split; [lia|done].
Qed.

Lemma gather_in_range {A} (l : list A) idx_list :
  Forall (fun i => (i < length l)%nat) idx_list ->
  Forall2 (fun i x => l !! i = Some x) idx_list (gather l idx_list).
Proof.
  unfold gather. induction 1 as [|i rest Hi _ IH]; simpl; [constructor|].
  destruct (lookup_lt_is_Some_2 l i Hi) as [x Hx].
  apply Nat.ltb_lt in Hi. rewrite Hi. simpl. rewrite Hx. by constructor.
Qed.

Lemma search_one_facts ix q k :
  let ranked := search_one ix q k in
  length ranked = Nat.min (Z.to_nat k) (ntotal ix)
  /\ StronglySorted (fun a b => dle a b = true) (map snd ranked)
  /\ NoDup (map fst ranked)
  /\ (forall i dist, In (i, dist) ranked ->
        exists v, xb ix !! i = Some v /\ dist = l2 q v)
  /\ ((ntotal ix <= Z.to_nat k)%nat -> Permutation (map fst ranked) (seq 0 (ntotal ix))).
Proof.
  unfold search_one, ntotal.
  set (all := sort_asc (row_distances q 0 (xb ix))).
  assert (Permutation all (row_distances q 0 (xb ix))) as Hperm
    by apply sort_asc_perm.
  assert (Permutation (map fst all) (seq 0 (length (xb ix)))) as Hfst.
  { rewrite <- row_distances_fst with (q := q). by apply Permutation_map. }
  simpl. split; [|split; [|split; [|split]]].
  - rewrite length_take. f_equal.
    rewrite (Permutation_length Hperm), <- (length_map fst), row_distances_fst.
    apply length_seq.
  - apply (StronglySorted_map snd dist_le); [done|].
    apply StronglySorted_firstn, sort_asc_sorted.
  - apply (sublist_NoDup _ (map fst all)).
    + rewrite Hfst. apply NoDup_seq.
    + rewrite <- firstn_map. apply sublist_take.
  - intros i dist Hin. apply firstn_In_stdlib in Hin.
    apply (Permutation_in _ Hperm) in Hin.
    apply row_distances_In in Hin as (v & _ & Hv & ->).
    rewrite Nat.sub_0_r in Hv. eauto.
  - intros Hall. rewrite take_ge; [exact Hfst|].
    rewrite (Permutation_length Hperm), <- (length_map fst), row_distances_fst, length_seq.
    exact Hall.
Qed.

Lemma gather_omap {A} (l : list A) idx_list :
  gather l idx_list = omap (fun i => l !! i) idx_list.
Proof.
  unfold gather. induction idx_list as [|i rest IH]; [done|].
  cbn [List.filter]. destruct (Nat.ltb_spec i (length l)) as [Hlt|Hge]; csimpl.
  - destruct (l !! i); by rewrite IH.
  - rewrite (lookup_ge_None_2 l i Hge). exact IH.
Qed.

(** C8. For one query text, [query] returns one row of distances and one
    row of documents. The distances are in non-decreasing order and there
    are [min(k, index size)] of them, where [k = min(n_results, count())];
    position [p] of the distances belongs to one index row, each index row
    occurring at most once, and holds the distance of that row to the
    query; every index row is ranked when the index holds no more than [k]
    rows; the documents are those stored at the ranked rows, in rank
    order. On a collection that satisfies I1 every ranked row has its
    document, so that position [p] of the documents is the document whose
    distance is at position [p]. *)
Theorem query_ranked {EML : EmbeddingModelLaws} c q n_results r :
  query c [q] n_results = Return r ->
  exists docs dists rows,
    q_documents r = [docs] /\ q_distances r = [dists]
    /\ length rows = length dists
    /\ length dists
       = Nat.min (Z.to_nat (Z.min n_results (count c))) (ntotal (index c))
    /\ StronglySorted (fun a b => dle a b = true) dists
    /\ NoDup rows
    /\ (forall qv, encode [q] = Return [qv] ->
        forall p i, rows !! p = Some i ->
          exists v, xb (index c) !! i = Some v /\ dists !! p = Some (l2 qv v))
    /\ ((ntotal (index c) <= Z.to_nat (Z.min n_results (count c)))%nat ->
        Permutation rows (seq 0 (ntotal (index c))))
    /\ docs = omap (fun i => documents c !! i) rows
    /\ (I1 c ->
        length docs = length dists
        /\ forall p i, rows !! p = Some i ->
             exists doc, documents c !! i = Some doc /\ docs !! p = Some doc).
Proof.
  intros Hrun. unfold query in Hrun.
  destruct (documents c) as [|doc0 docs0] eqn:Hdocs.
  { injection Hrun as <-. exists [], [], []. simpl.
    assert (Z.to_nat (Z.min n_results (count c)) = 0%nat) as Hk.
    { unfold count, len. rewrite Hdocs. simpl. lia. }
    rewrite Hk. simpl.
    do 5 (split; [first [done|constructor]|]).
    split; [constructor|]. split; [done|]. split.
    - intros Hz. replace (ntotal (index c)) with 0%nat by lia. constructor.
    - split; [done|]. intros _. split; [done|]. done. }
  destruct (encode [q]) as [qvs|e] eqn:He; [|discriminate].
  pose proof (encode_length _ _ He) as Hlen.
  destruct qvs as [|qv [|? ?]]; try discriminate. clear Hlen.
  simpl in Hrun. unfold index_search in Hrun.
  destruct (forallb _ [qv]); [|discriminate]. simpl in Hrun.
  injection Hrun as <-. simpl.
  rewrite <- Hdocs. fold (count c).
  set (k := Z.min n_results (count c)).
  destruct (search_one_facts (index c) qv k) as (Hlenr & Hsorted & Hnodup & Hin & Hall).
  set (ranked := search_one (index c) qv k) in *.
  exists (gather (documents c) (map fst ranked)), (map snd ranked), (map fst ranked).
  split; [done|]. split; [done|].
  split; [by rewrite !length_map|].
  split; [by rewrite length_map|].
  split; [exact Hsorted|]. split; [exact Hnodup|]. split; [|split; [exact Hall|]].
  { intros qv' [= <-] p i Hp.
    change (map fst ranked) with (fst <$> ranked) in Hp.
    apply list_lookup_fmap_Some in Hp as ([i' dist] & -> & Hr). simpl.
    destruct (Hin i' dist) as (v & Hv & ->).
    { apply list_elem_of_In. eapply list_elem_of_lookup_2. exact Hr. }
    exists v. split; [done|].
    change (map snd ranked) with (snd <$> ranked).
    rewrite list_lookup_fmap, Hr. done. }
  split; [apply gather_omap|].
  intros (Hi & Hd & Hm).
  assert (Forall (fun i => (i < length (documents c))%nat) (map fst ranked)) as Hrange.
  { apply Forall_forall. intros i Hi'. apply list_elem_of_In, in_map_iff in Hi'
      as ([i' dist] & <- & Hi'). simpl.
    apply Hin in Hi' as (v & Hv & _). apply lookup_lt_Some in Hv.
    unfold ntotal in Hm. lia. }
  pose proof (gather_in_range (documents c) _ Hrange) as Hgather.
  split; [rewrite <- (Forall2_length _ _ _ Hgather), !length_map; done|].
  intros p i Hp.
  destruct (Forall2_lookup_l _ _ _ p i Hgather) as (doc & Hdoc & Hdi); [exact Hp|].
  exists doc. done.
Qed.

End QueryProperties.

(** ** Further properties of [FAISSCollection] *)

Section StoreProperties.
Context {VS : VectorSpace} {EM : EmbeddingModel} {TS : TextSplitter}.

(** An [add] that returns with documents to store took the last branch. *)
Lemma add_returned env c dk ids_ docs metadatas_ c' dk' :
  docs <> [] ->
  add env c dk ids_ (Some docs) metadatas_ = (Return tt, c', dk') ->
  exists rows ix,
    encode docs = Return rows
    /\ index_add (index c) rows = Return ix
    /\ c' = {| name := name c; persist_dir := persist_dir c;
               dimension := dimension c; index := ix;
               documents := documents c ++ docs;
               metadatas := metadatas c ++
                            (if truthy_list metadatas_
                             then default [] metadatas_
                             else map (fun _ => ∅) docs);
               ids := ids c ++ ids_ |}
    /\ dk' = snd (_persist env c' dk).
Proof.
  intros Hne Hrun.
  destruct (add_cases env c dk ids_ (Some docs) metadatas_)
    as [[Hemp _]|[(? & e & _ & _ & Ha)|[(? & rows & e & _ & _ & _ & Ha)
       |(? & rows & ix & c0 & [= <-] & _ & He & Hx & -> & Ha)]]];
    try (rewrite Ha in Hrun; discriminate).
  - destruct docs; [done|discriminate].
  - rewrite Ha in Hrun. injection Hrun as <- <-. exists rows, ix. done.
Qed.

(** X1. Reload. After an [add] that stored documents and wrote both files,
    a collection constructed with the same name and directory from the
    files has the index, the documents, the metadata and the ids of the
    collection in memory, hence the same [count()]. *)
Theorem reload_after_add env c dk ids_ docs metadatas_ c' dk' :
  docs <> [] ->
  makedirs_ok env = true -> write_index env = WriteOk -> write_meta env = WriteOk ->
  add env c dk ids_ (Some docs) metadatas_ = (Return tt, c', dk') ->
  let reloaded := __init__ (name c) (persist_dir c) dk' in
  index reloaded = index c'
  /\ ids reloaded = ids c'
  /\ documents reloaded = documents c'
  /\ metadatas reloaded = metadatas c'
  /\ count reloaded = count c'
  /\ name reloaded = name c' /\ persist_dir reloaded = persist_dir c'.
Proof.
  intros Hne Hm Hi Hw Hrun.
  apply add_returned in Hrun as (rows & ix & _ & _ & -> & ->); [|assumption].
  rewrite _persist_all_ok by assumption. simpl. done.
Qed.

(** X2. Append only. An [add] that returns with documents to store has
    appended the rows of the model to the index, the documents and the ids
    to their lists, and to the metadata the dictionaries it was given (empty
    ones when it was given none); [count()] grows by the number of
    documents, and every entry that was stored before is still at its
    position. *)
Theorem add_appends env c dk ids_ docs metadatas_ c' dk' :
  docs <> [] ->
  add env c dk ids_ (Some docs) metadatas_ = (Return tt, c', dk') ->
  exists rows,
    encode docs = Return rows
    /\ xb (index c') = (xb (index c) ++ rows)%list
    /\ documents c' = (documents c ++ docs)%list
    /\ ids c' = (ids c ++ ids_)%list
    /\ metadatas c'
       = (metadatas c ++ (if truthy_list metadatas_ then default [] metadatas_
                          else map (fun _ => ∅) docs))%list
    /\ count c' = count c + len docs
    /\ (forall i, (i < length (documents c))%nat -> documents c' !! i = documents c !! i)
    /\ (forall i, (i < length (ids c))%nat -> ids c' !! i = ids c !! i)
    /\ (forall i, (i < length (metadatas c))%nat -> metadatas c' !! i = metadatas c !! i)
    /\ (forall i, (i < ntotal (index c))%nat -> xb (index c') !! i = xb (index c) !! i).
Proof.
  intros Hne Hrun.
  apply add_returned in Hrun as (rows & ix & He & Hx & -> & _); [|assumption].
  unfold index_add in Hx. destruct (forallb _ rows); [|discriminate].
  injection Hx as <-. simpl.
  exists rows. split; [exact He|]. do 4 (split; [reflexivity|]).
  split; [unfold count, len; simpl; rewrite length_app; lia|].
  repeat split; intros i Hi; by apply lookup_app_l.
Qed.

Lemma add_raise_cases env c dk ids_ documents_ metadatas_ e c' dk' :
  add env c dk ids_ documents_ metadatas_ = (Raise e, c', dk') ->
  c' = c /\ dk' = dk
  /\ exists docs, documents_ = Some docs
       /\ (encode docs = Raise e
           \/ exists rows, encode docs = Return rows
                /\ index_add (index c) rows = Raise e).
Proof.
  intros Hrun.
  destruct (add_cases env c dk ids_ documents_ metadatas_)
    as [[_ Ha]|[(docs & e' & -> & He & Ha)|[(docs & rows & e' & -> & He & Hx & Ha)
       |(docs & rows & ix & c0 & _ & _ & _ & _ & _ & Ha)]]];
    rewrite Ha in Hrun; try discriminate; injection Hrun as <- <- <-.
  - split; [done|]. split; [done|]. exists docs. split; [done|]. by left.
  - split; [done|]. split; [done|]. exists docs. split; [done|]. right. by exists rows.
Qed.

(** X3. All or nothing. When [add] raises, the exception is the one of the
    embedding model or of the index, and the collection and the persisted
    files are as they were. *)
Theorem add_raise_keeps_state env c dk ids_ documents_ metadatas_ e c' dk' :
  add env c dk ids_ documents_ metadatas_ = (Raise e, c', dk') ->
  c' = c /\ dk' = dk
  /\ exists docs, documents_ = Some docs
       /\ (encode docs = Raise e
           \/ exists rows, encode docs = Return rows
                /\ index_add (index c) rows = Raise e).
Proof. apply add_raise_cases. Qed.

(** X4. The index file is written before the metadata file: whenever
    [_persist] changes the metadata file, the index file holds the index of
    the collection; and an index write that fails leaves the metadata file
    as it was. *)
Theorem persist_index_first env c dk :
  let dk' := snd (_persist env c dk) in
  (meta_file dk' <> meta_file dk -> index_file dk' = Some (Content (index c)))
  /\ (write_index env <> WriteOk -> meta_file dk' = meta_file dk)
  /\ (makedirs_ok env = false -> dk' = dk)
  /\ (dk' = {| index_file := Some (Content (index c));
               meta_file := Some (Content (pickle_of c)) |}
      \/ makedirs_ok env = false \/ write_index env <> WriteOk
      \/ write_meta env <> WriteOk).
Proof.
  unfold _persist, _persist_body, pickle_of.
  destruct (makedirs_ok env); simpl.
  2:{ split; [done|]. split; [done|]. split; [done|]. right; by left. }
  destruct (write_index env); simpl.
  2,3: (split; [done|]; split; [done|]; split; [done|]; right; right; by left).
  destruct (write_meta env); simpl.
  - split; [done|]. split; [done|]. split; [done|]. by left.
  - split; [done|]. split; [done|]. split; [done|]. right; right; by right.
  - split; [done|]. split; [done|]. split; [done|]. right; right; by right.
Qed.

(** *** [get] *)

Lemma where_matches_subseteq (w meta : gmap string string) :
  where_matches w meta = true <-> w ⊆ meta.
Proof.
  unfold where_matches. rewrite forallb_forall, map_subseteq_spec. split.
  - intros Hall k v Hk.
    specialize (Hall (k, v)). simpl in Hall.
    eapply bool_decide_eq_true_1, Hall.
    apply list_elem_of_In. by apply elem_of_map_to_list.
  - intros Hsub [k v] Hin. simpl. apply bool_decide_eq_true_2, Hsub.
    apply elem_of_map_to_list. by apply list_elem_of_In.
Qed.

(** On aligned lists the loop of [get] selects, from position [i] on, the
    entries whose metadata match. *)
Lemma get_loop_selects c w metas : forall i,
  (i + length metas <= length (ids c))%nat ->
  (i + length metas <= length (documents c))%nat ->
  get_loop c w i metas
  = Return (List.filter (fun t => where_matches w (snd t))
              (zip (zip (drop i (ids c)) (drop i (documents c))) metas)).
Proof.
  induction metas as [|meta rest IH]; intros i Hi Hd.
  - simpl. by rewrite zip_with_nil_r.
  - simpl in Hi, Hd.
    destruct (lookup_lt_is_Some_2 (ids c) i) as [id Hid]; [lia|].
    destruct (lookup_lt_is_Some_2 (documents c) i) as [doc Hdoc]; [lia|].
    rewrite (drop_S _ _ _ Hid), (drop_S _ _ _ Hdoc).
    cbn [zip_with List.filter snd get_loop].
    rewrite (IH (S i)) by lia.
    destruct (where_matches w meta); [|reflexivity].
    unfold getitem. rewrite Hid, Hdoc. reflexivity.
Qed.

Lemma filter_all {A} (f : A -> bool) l :
  (forall x, f x = true) -> List.filter f l = l.
Proof.
  intros Hf. induction l as [|x l IH]; simpl; [done|]. by rewrite Hf, IH.
Qed.

(** X5. On a collection that satisfies I1, [get] with a filter returns
    without raising exactly the stored entries whose metadata contain every
    key of the filter with the same value, in stored order, each with its
    own id, document and metadata; a missing or empty filter returns every
    entry. *)
Theorem get_returns_matching c w :
  I1 c ->
  let selected := List.filter (fun t => where_matches w (snd t)) (entries c) in
  get c (Some w)
  = Return {| g_ids := map (fun t => fst (fst t)) selected;
              g_documents := map (fun t => snd (fst t)) selected;
              g_metadatas := map snd selected |}
  /\ (forall meta, where_matches w meta = true <-> w ⊆ meta)
  /\ (w = ∅ -> selected = entries c)
  /\ get c None
     = Return {| g_ids := map (fun t => fst (fst t)) (entries c);
                 g_documents := map (fun t => snd (fst t)) (entries c);
                 g_metadatas := map snd (entries c) |}.
Proof.
  intros (Hi & Hd & _) selected.
  assert (map (fun t : string * string * gmap string string => fst (fst t)) (entries c)
          = ids c) as Hids.
  { unfold entries. rewrite <- (map_map fst fst).
    change ((zip (zip (ids c) (documents c)) (metadatas c)).*1.*1 = ids c).
    rewrite fst_zip by (rewrite length_zip; lia). apply fst_zip. lia. }
  assert (map (fun t : string * string * gmap string string => snd (fst t)) (entries c)
          = documents c) as Hdocs.
  { unfold entries. rewrite <- (map_map fst snd).
    change ((zip (zip (ids c) (documents c)) (metadatas c)).*1.*2 = documents c).
    rewrite fst_zip by (rewrite length_zip; lia). apply snd_zip. lia. }
  assert (map snd (entries c) = metadatas c) as Hmetas.
  { unfold entries. apply snd_zip. rewrite length_zip. lia. }
  assert (w = ∅ -> selected = entries c) as Hall.
  { intros ->. apply filter_all. intros t. apply where_matches_subseteq.
    apply map_empty_subseteq. }
  split; [|split; [apply where_matches_subseteq|split; [exact Hall|]]].
  - unfold get. destruct (bool_decide (w = ∅)) eqn:Hw.
    + apply bool_decide_eq_true_1 in Hw. rewrite (Hall Hw), Hids, Hdocs, Hmetas.
      reflexivity.
    + rewrite get_loop_selects by lia. rewrite !drop_0. reflexivity.
  - unfold get. by rewrite Hids, Hdocs, Hmetas.
Qed.

(** *** The duplicate check *)

(** X6. On a collection that satisfies I1 and for a non-empty source, the
    duplicate check of [chunk_and_store] succeeds exactly when some stored
    entry has this source in its metadata. *)
Theorem source_exists_iff c src :
  I1 c -> PyStr.truthy src = true ->
  source_exists c (Some src) = true
  <-> exists meta, meta ∈ metadatas c /\ meta !! "source" = Some src.
Proof.
  intros (Hi & Hd & Hm) Ht. split.
  - unfold source_exists, get. rewrite Ht.
    rewrite bool_decide_eq_false_2 by apply map_non_empty_singleton.
    destruct (get_loop_aligned c {[ "source" := src ]} (metadatas c) 0)
      as (res & -> & Hres); [lia|lia|].
    rewrite bind_Return. simpl. unfold len. rewrite length_map.
    destruct res as [|t res]; [discriminate|]. intros _.
    assert (In (snd t) (List.filter (where_matches {[ "source" := src ]}) (metadatas c)))
      as Hin by (rewrite <- Hres; by left).
    apply filter_In in Hin as [Hin Hmatch].
    exists (snd t). split; [by apply list_elem_of_In|].
    rewrite where_matches_singleton in Hmatch. by apply bool_decide_eq_true_1 in Hmatch.
  - intros (meta & Hin & Hsrc).
    apply source_exists_found with (meta := meta); try assumption; lia.
Qed.

(** X7. A call of [chunk_and_store] that returns either found its source
    and changed nothing, or appended one entry per chunk of the splitter, in
    order, with fresh ids, and returned their number: [count()] grows by
    exactly the number returned, and I1 is kept. *)
Theorem chunk_and_store_count {EML : EmbeddingModelLaws}
    env text c dk source cs co n b c1 dk1 :
  chunk_and_store env text c dk source cs co = (Return (n, b), c1, dk1) ->
  count c1 = count c + n
  /\ (b = true -> n = 0 /\ c1 = c /\ dk1 = dk)
  /\ (b = false ->
      exists chunks,
        split_text cs co text = Return chunks /\ n = len chunks
        /\ documents c1 = (documents c ++ chunks)%list
        /\ ids c1 = (ids c ++ map (uuid4 env) (seq 0 (length chunks)))%list)
  /\ (I1 c -> I1 c1).
Proof.
  intros Hrun. pose proof Hrun as Hret.
  apply chunk_and_store_returns in Hret
    as [(_ & -> & -> & -> & ->)|(chunks & _ & Hs & -> & -> & Hdocs & Hmetas & Hids)].
  - split; [lia|]. split; [done|]. split; [discriminate|]. done.
  - split; [unfold count, len; rewrite Hdocs, length_app; lia|].
    split; [discriminate|]. split; [intros _; by exists chunks|].
    intros HI. unfold chunk_and_store in Hrun.
    destruct (source_exists c source); [discriminate|]. rewrite Hs in Hrun.
    pose proof (I1_add env c dk (map (uuid4 env) (seq 0 (length chunks)))
                  (Some chunks) (Some (map (fun _ => source_metadata source) chunks)) HI)
      as Hkeep.
    destruct (add env c dk _ _ _) as [[r c'] dk'].
    destruct r; simpl in Hrun; [|discriminate]. injection Hrun as <- <-.
    apply Hkeep. simpl. rewrite !length_map, length_seq. done.
Qed.

Lemma chunk_and_store_raise_unchanged env text c dk source cs co e c1 dk1 :
  chunk_and_store env text c dk source cs co = (Raise e, c1, dk1) ->
  c1 = c /\ dk1 = dk.
Proof.
  unfold chunk_and_store. destruct (source_exists c source); [discriminate|].
  destruct (split_text cs co text) as [chunks|e']; [|by intros [= _ <- <-]].
  destruct (add env c dk _ _ _) as [[r c'] dk'] eqn:Ha.
  destruct r as [[]|e']; simpl; [discriminate|].
  intros [= _ <- <-]. apply add_raise_cases in Ha as (-> & -> & _). done.
Qed.

(** X8. When [chunk_and_store] raises, the splitter, the embedding model or
    the index has raised, and the collection and the persisted files are as
    they were. *)
Theorem chunk_and_store_raise_keeps_state env text c dk source cs co e c1 dk1 :
  chunk_and_store env text c dk source cs co = (Raise e, c1, dk1) ->
  c1 = c /\ dk1 = dk
  /\ source_exists c source = false
  /\ (split_text cs co text = Raise e
      \/ exists chunks, split_text cs co text = Return chunks
           /\ (encode chunks = Raise e
               \/ exists rows, encode chunks = Return rows
                    /\ index_add (index c) rows = Raise e)).
Proof.
  intros Hrun. pose proof (chunk_and_store_raise_unchanged _ _ _ _ _ _ _ _ _ _ Hrun)
    as (-> & ->).
  split; [done|]. split; [done|]. unfold chunk_and_store in Hrun.
  destruct (source_exists c source); [discriminate|]. split; [done|].
  destruct (split_text cs co text) as [chunks|e']; [|left; congruence].
  right. exists chunks. split; [done|].
  destruct (add env c dk _ _ _) as [[r c'] dk'] eqn:Ha.
  destruct r as [[]|e']; simpl in Hrun; [discriminate|]. injection Hrun as -> _ _.
  apply add_raise_cases in Ha as (_ & _ & docs & [= <-] & Hcase). exact Hcase.
Qed.

(** After a call that found the source or stored a chunk, the duplicate
    check succeeds. *)
Lemma source_exists_after_store env text c dk src cs co n b c1 dk1 :
  I1 c -> PyStr.truthy src = true ->
  chunk_and_store env text c dk (Some src) cs co = (Return (n, b), c1, dk1) ->
  b = true \/ 0 < n ->
  source_exists c1 (Some src) = true.
Proof.
  intros (Hi & Hd & _) Ht Hrun Hstored.
  apply chunk_and_store_returns in Hrun
    as [(Hex & _ & _ & -> & _)|(chunks & _ & _ & -> & -> & Hdocs & Hmetas & Hids)];
    [assumption|].
  destruct Hstored as [|Hpos]; [discriminate|].
  destruct chunks as [|chunk chunks]; [unfold len in Hpos; simpl in Hpos; lia|].
  apply source_exists_found with (meta := {[ "source" := src ]}).
  - rewrite Hmetas, Hids, !length_app, !length_map, length_seq. lia.
  - rewrite Hmetas, Hdocs, !length_app, !length_map. lia.
  - assumption.
  - rewrite Hmetas. simpl. rewrite Ht. apply elem_of_app. right. left.
  - apply lookup_singleton_eq.
Qed.

(** X9. Deduplication is per source: on a collection that satisfies I1, a
    call for source [s] that returns does not change the answer of the
    duplicate check for any other non-empty source. *)
Theorem dedup_per_source env text c dk s t cs co n b c1 dk1 :
  I1 c -> PyStr.truthy t = true -> s <> Some t ->
  chunk_and_store env text c dk s cs co = (Return (n, b), c1, dk1) ->
  source_exists c1 (Some t) = source_exists c (Some t).
Proof.
  intros (Hi & Hd & Hm) Ht Hne Hrun.
  apply chunk_and_store_returns in Hrun
    as [(_ & _ & _ & -> & _)|(chunks & _ & _ & _ & _ & Hdocs & Hmetas & Hids)];
    [reflexivity|].
  unfold source_exists, get. rewrite Ht.
  rewrite bool_decide_eq_false_2 by apply map_non_empty_singleton.
  destruct (get_loop_aligned c {[ "source" := t ]} (metadatas c) 0)
    as (res & -> & Hres); [lia|lia|].
  destruct (get_loop_aligned c1 {[ "source" := t ]} (metadatas c1) 0)
    as (res1 & -> & Hres1).
  { rewrite Hmetas, Hids, !length_app, !length_map, length_seq. lia. }
  { rewrite Hmetas, Hdocs, !length_app, !length_map. lia. }
  rewrite !bind_Return. simpl. unfold len. rewrite !length_map.
  rewrite <- (length_map snd res1), <- (length_map snd res), Hres1, Hres.
  rewrite Hmetas, List.filter_app.
  assert (List.filter (where_matches {[ "source" := t ]})
            (map (fun _ : string => source_metadata s) chunks) = []) as ->.
  { clear Hdocs Hmetas Hids Hres1.
    induction chunks as [|ch chunks IH]; simpl; [done|].
    rewrite where_matches_singleton.
    rewrite bool_decide_eq_false_2; [exact IH|].
    unfold source_metadata. destruct s as [src|]; [|by rewrite lookup_empty].
    destruct (PyStr.truthy src); [|by rewrite lookup_empty].
    rewrite lookup_singleton_eq. intros [= ->]. by apply Hne. }
  by rewrite app_nil_r.
Qed.

(** *** [query] and [retrieve_context] on a [FAISSCollection] *)

Lemma search_one_length ix q k :
  length (search_one ix q k) = Nat.min (Z.to_nat k) (ntotal ix).
Proof.
  unfold search_one, ntotal. rewrite length_take. f_equal.
  rewrite (Permutation_length (sort_asc_perm _)), <- (length_map fst), row_distances_fst.
  apply length_seq.
Qed.

Lemma search_one_in_range ix q k :
  Forall (fun i => (i < ntotal ix)%nat) (map fst (search_one ix q k)).
Proof.
  apply Forall_forall. intros i Hi.
  apply list_elem_of_In, in_map_iff in Hi as ([i' dist] & <- & Hi). simpl.
  unfold search_one in Hi. apply firstn_In_stdlib in Hi.
  apply (Permutation_in _ (sort_asc_perm _)) in Hi.
  apply row_distances_In in Hi as (v & _ & Hv & _).
  rewrite Nat.sub_0_r in Hv. by apply lookup_lt_Some in Hv.
Qed.

Lemma Forall2_same_rows {A B} (la : list A) (lb : list B) rows xs ys :
  Forall2 (fun i x => la !! i = Some x) rows xs ->
  Forall2 (fun i y => lb !! i = Some y) rows ys ->
  Forall2 (fun x y => exists i : nat, la !! i = Some x /\ lb !! i = Some y) xs ys.
Proof.
  intros Hx. revert ys. induction Hx as [|i x rows xs Hi _ IH]; intros ys Hy.
  - inversion Hy. constructor.
  - inversion Hy as [|? y ? ys' Hj Hys]; subst. constructor; [by exists i|by apply IH].
Qed.

(** X10. On a collection that satisfies I1, every document returned by
    [query] comes with the metadata of the same stored entry: the rows of
    documents and of metadata have one length, and position by position
    they are the document and the metadata stored at one position. *)
Theorem query_metadata_aligned c query_texts n_results r :
  I1 c -> query c query_texts n_results = Return r ->
  Forall2 (fun docs metas =>
             Forall2 (fun doc meta =>
                        exists i : nat, documents c !! i = Some doc
                                        /\ metadatas c !! i = Some meta)
                     docs metas)
          (q_documents r) (q_metadatas r).
Proof.
  intros (Hi & Hd & Hm) Hrun. unfold query in Hrun.
  destruct query_texts as [|q0 qs]; [injection Hrun as <-; repeat constructor|].
  destruct (documents c) as [|doc0 docs0] eqn:Hdocs;
    [injection Hrun as <-; repeat constructor|].
  destruct (encode (q0 :: qs)) as [qvs|e]; [|discriminate]. simpl in Hrun.
  unfold index_search in Hrun. destruct (forallb _ qvs); [|discriminate].
  simpl in Hrun. injection Hrun as <-. simpl. rewrite <- Hdocs.
  rewrite <- Hdocs in Hi, Hd.
  set (k := Z.min n_results (len (documents c))).
  induction qvs as [|qv qvs IH]; simpl; constructor; [|exact IH].
  pose proof (search_one_in_range (index c) qv k) as Hrange.
  apply Forall2_same_rows with (rows := map fst (search_one (index c) qv k)).
  - apply gather_in_range. eapply Forall_impl; [exact Hrange|]. simpl. intros; lia.
  - apply gather_in_range. eapply Forall_impl; [exact Hrange|]. simpl. intros; lia.
Qed.

(** X11. A collection without documents answers [("", "none")], whatever the
    query, [n_results], the embedding model and the fallback text: the
    keyword fallback is not consulted. This holds in particular for a
    collection constructed when the persisted files are absent. *)
Theorem retrieve_context_empty_collection c query_ n_results fallback_text :
  (documents c = [] ->
   retrieve_context query_ c n_results fallback_text = ("", "none"))
  /\ (forall nm dir dk,
        index_file dk = None \/ meta_file dk = None ->
        retrieve_context query_ (__init__ nm dir dk) n_results fallback_text
        = ("", "none")).
Proof.
  split.
  - intros Hd. unfold retrieve_context, retrieve_context_body. simpl.
    unfold count. rewrite Hd. reflexivity.
  - intros nm dir dk Hdk. unfold retrieve_context, retrieve_context_body. simpl.
    unfold __init__, _load_or_create.
    destruct Hdk as [-> | ->]; [reflexivity|].
    destruct (index_file dk); reflexivity.
Qed.

(** X12. On a collection that satisfies I1 and holds documents, for
    [n_results >= 1] and a query the model embeds in the dimension of the
    index, [retrieve_context] answers with the method [semantic]: the
    context joins [min(n_results, count())] stored documents, and the
    keyword fallback is not used whatever the fallback text. *)
Theorem retrieve_context_semantic_on_consistent c query_ n_results fallback_text qv :
  I1 c -> documents c <> [] -> 1 <= n_results ->
  encode [query_] = Return [qv] -> vdim qv = d (index c) ->
  exists docs,
    retrieve_context query_ c n_results fallback_text
    = (PyStr.join blank_line docs, "semantic")
    /\ len docs = Z.min n_results (count c)
    /\ (forall doc, In doc docs -> In doc (documents c)).
Proof.
  intros (Hi & Hd & Hm) Hne Hn He Hdim.
  unfold retrieve_context, retrieve_context_body. simpl.
  assert (0 < count c) as Hcount.
  { unfold count, len. destruct (documents c); [done|simpl; lia]. }
  destruct (count c =? 0) eqn:Hz; [apply Z.eqb_eq in Hz; lia|]. clear Hz.
  unfold query. destruct (documents c) as [|doc0 docs0] eqn:Hdocs; [done|].
  rewrite He. simpl. unfold index_search. simpl.
  rewrite Hdim, Nat.eqb_refl. simpl. rewrite <- Hdocs.
  rewrite <- Hdocs in Hi, Hd.
  fold (count c).
  set (k := Z.min (Z.min (n_results * 2) (count c)) (count c)).
  set (ranked := search_one (index c) qv k).
  pose proof (search_one_length (index c) qv k) as Hlen. fold ranked in Hlen.
  pose proof (search_one_in_range (index c) qv k) as Hrange. fold ranked in Hrange.
  assert (Forall2 (fun i x => documents c !! i = Some x) (map fst ranked)
            (gather (documents c) (map fst ranked))) as Hg.
  { apply gather_in_range. eapply Forall_impl; [exact Hrange|]. simpl. intros; lia. }
  pose proof (Forall2_length _ _ _ Hg) as Hglen. rewrite length_map, Hlen in Hglen.
  assert (ntotal (index c) = Z.to_nat (count c)) as Hnt.
  { unfold count, len. rewrite Nat2Z.id. lia. }
  assert (forall doc, In doc (gather (documents c) (map fst ranked)) ->
                      In doc (documents c)) as Hsub.
  { intros doc Hin. rewrite gather_omap in Hin.
    apply list_elem_of_In, list_elem_of_omap in Hin as (i & _ & Hdoc).
    apply list_elem_of_In. eapply list_elem_of_lookup_2. exact Hdoc. }
  destruct (gather (documents c) (map fst ranked)) as [|g0 gs] eqn:Hgather.
  { simpl in Hglen. subst k. lia. }
  exists (slice_to n_results (g0 :: gs)). split; [reflexivity|]. split.
  - rewrite slice_to_firstn by lia. unfold len. rewrite length_take, <- Hglen.
    subst k. lia.
  - intros doc Hin. rewrite slice_to_firstn in Hin by lia.
    apply firstn_In_stdlib in Hin. change (In doc (doc0 :: docs0)).
    rewrite <- Hdocs. by apply Hsub.
Qed.

(** *** [add] outside its precondition, and [get] after a store *)

(** X25. [add] does not check its arguments: when it returns with documents
    to store on a collection that satisfies I1, the new collection satisfies
    I1 exactly when there are as many ids as documents and, if dictionaries
    were given, as many dictionaries as documents. *)
Theorem add_keeps_I1_iff {EML : EmbeddingModelLaws}
    env c dk ids_ docs metadatas_ c' dk' :
  I1 c -> docs <> [] ->
  add env c dk ids_ (Some docs) metadatas_ = (Return tt, c', dk') ->
  I1 c' <-> (length ids_ = length docs
             /\ (truthy_list metadatas_ = true ->
                 length (default [] metadatas_) = length docs)).
Proof.
  intros (Hi & Hd & Hm) Hne Hrun.
  apply add_returned in Hrun as (rows & ix & He & Hx & -> & _); [|assumption].
  apply encode_length in He. apply index_add_ntotal in Hx.
  unfold I1. simpl. rewrite !length_app, Hx, He.
  destruct (truthy_list metadatas_); [|rewrite length_map]; split.
  - intros (? & ? & ?). split; [lia|]. intros _. lia.
  - intros (? & Hms). specialize (Hms eq_refl). lia.
  - intros (? & ? & ?). split; [lia|done].
  - intros (? & _). lia.
Qed.

Lemma filter_all_In {A} (f : A -> bool) l :
  (forall x, In x l -> f x = true) -> List.filter f l = l.
Proof.
  induction l as [|x l IH]; intros Hf; simpl; [done|].
  rewrite (Hf x) by (by left). rewrite IH; [done|]. intros y Hy. apply Hf. by right.
Qed.

(** X26. What is stored under a new source is what [get] returns for it: on
    a collection that satisfies I1, after a call of [chunk_and_store] with a
    non-empty source that returned [(n, False)], [get] with this source as
    filter returns exactly the chunks of the splitter, in order, with the
    ids drawn for them and the dictionary [{"source": source}]. *)
Theorem stored_chunks_found_by_source env text c dk src cs co n c1 dk1 :
  I1 c -> PyStr.truthy src = true ->
  chunk_and_store env text c dk (Some src) cs co = (Return (n, false), c1, dk1) ->
  exists chunks,
    split_text cs co text = Return chunks /\ n = len chunks
    /\ get c1 (Some {[ "source" := src ]})
       = Return {| g_ids := map (uuid4 env) (seq 0 (length chunks));
                   g_documents := chunks;
                   g_metadatas := map (fun _ => {[ "source" := src ]}) chunks |}.
Proof.
  intros (Hi & Hd & Hm) Ht Hrun.
  apply chunk_and_store_returns in Hrun
    as [(_ & _ & [=] & _)|(chunks & Hex & Hs & -> & _ & Hdocs & Hmetas & Hids)].
  exists chunks. split; [exact Hs|]. split; [reflexivity|].
  set (w := ({[ "source" := src ]} : gmap string string)).
  assert (List.filter (fun t : string * string * gmap string string =>
                         where_matches w (snd t)) (entries c) = []) as Hold.
  { unfold source_exists, get in Hex. rewrite Ht in Hex.
    rewrite bool_decide_eq_false_2 in Hex by apply map_non_empty_singleton.
    rewrite get_loop_selects, !drop_0 in Hex by lia.
    rewrite bind_Return in Hex. simpl in Hex. unfold len in Hex.
    rewrite length_map in Hex. fold w in Hex. unfold entries.
    destruct (List.filter _ _); [done|simpl in Hex; discriminate]. }
  simpl in Hmetas. rewrite Ht in Hmetas. fold w in Hmetas.
  unfold get. rewrite bool_decide_eq_false_2 by apply map_non_empty_singleton.
  rewrite get_loop_selects, !drop_0.
  2:{ rewrite Hmetas, Hids, !length_app, !length_map, length_seq. lia. }
  2:{ rewrite Hmetas, Hdocs, !length_app, !length_map. lia. }
  rewrite bind_Return, Hids, Hdocs, Hmetas.
  rewrite (zip_with_app pair (ids c)) by lia.
  rewrite (zip_with_app pair (zip (ids c) (documents c))) by (rewrite length_zip; lia).
  rewrite List.filter_app. fold (entries c). rewrite Hold. simpl app.
  set (new_ids := map (uuid4 env) (seq 0 (length chunks))).
  set (new_metas := map (fun _ : string => w) chunks).
  assert (length new_ids = length chunks) as Hlen_ids
    by (unfold new_ids; rewrite length_map; apply length_seq).
  assert (length new_metas = length chunks) as Hlen_metas
    by (unfold new_metas; apply length_map).
  rewrite filter_all_In.
  2:{ intros [[id doc] meta] Hin. simpl.
      apply list_elem_of_In, elem_of_zip_r in Hin.
      apply list_elem_of_In, in_map_iff in Hin as (? & <- & _).
      apply where_matches_subseteq. done. }
  f_equal. f_equal.
  - rewrite <- (map_map fst fst).
    change ((zip (zip new_ids chunks) new_metas).*1.*1 = new_ids).
    rewrite fst_zip by (rewrite length_zip; lia). apply fst_zip. lia.
  - rewrite <- (map_map fst snd).
    change ((zip (zip new_ids chunks) new_metas).*1.*2 = chunks).
    rewrite fst_zip by (rewrite length_zip; lia). apply snd_zip. lia.
  - apply snd_zip. rewrite length_zip. lia.
Qed.

End StoreProperties.

(** ** Further properties of [keyword_search] *)

Section KeywordSearchEdges.

Lemma lower_char_idempotent c : PyStr.lower_char (PyStr.lower_char c) = PyStr.lower_char c.
Proof. destruct c as [[] [] [] [] [] [] [] []]; reflexivity. Qed.

Lemma isspace_lower_char c : PyStr.isspace (PyStr.lower_char c) = PyStr.isspace c.
Proof. destruct c as [[] [] [] [] [] [] [] []]; reflexivity. Qed.

Lemma lower_idempotent s : PyStr.lower (PyStr.lower s) = PyStr.lower s.
Proof.
  induction s as [|c s IH]; simpl; [done|]. by rewrite lower_char_idempotent, IH.
Qed.

Lemma split_ws_blank s : PyStr.all_space s = true -> PyStr.split_ws (PyStr.lower s) = [].
Proof.
  induction s as [|c s IH]; simpl; [done|].
  rewrite isspace_lower_char. destruct (PyStr.isspace c); [exact IH|discriminate].
Qed.

Lemma score_lines_no_tokens query_lower lines :
  PyStr.split_ws query_lower = [] -> score_lines query_lower lines = [].
Proof.
  intros Hq. induction lines as [|line rest IH]; simpl; [done|].
  unfold line_score, keyword_hits. rewrite Hq. simpl.
  destruct (0 <? Z.of_nat (String.length (PyStr.strip line))); exact IH.
Qed.

Lemma score_lines_blank_text query_lower lines :
  Forall (fun line => PyStr.all_space line = true) lines ->
  score_lines query_lower lines = [].
Proof.
  induction 1 as [|line rest Hb _ IH]; simpl; [done|].
  rewrite strip_nonblank, Hb. exact IH.
Qed.

(** X13. Every line [keyword_search] returns is a line of the text that is
    not blank and contains, in lower case, at least one token of the
    lowercased query. *)
Theorem keyword_search_lines_match full_text query top_k :
  exists lines,
    keyword_search full_text query top_k = PyStr.join PyStr.nl lines
    /\ forall line, In line lines ->
         In line (PyStr.split_on (ascii_of_nat 10) full_text)
         /\ PyStr.all_space line = false
         /\ exists word,
              In word (PyStr.split_ws (PyStr.lower query))
              /\ PyStr.contains (PyStr.lower line) word = true.
Proof.
  set (lines0 := PyStr.split_on (ascii_of_nat 10) full_text).
  set (ranked := sort_desc (score_lines (PyStr.lower query) lines0)).
  exists (map snd (slice_to top_k ranked)).
  split; [apply keyword_search_unfold|].
  intros line Hin. apply in_map_iff in Hin as ([score line'] & <- & Hin). simpl.
  assert (In (score, line') ranked) as Hr.
  { unfold slice_to in Hin. destruct (0 <=? top_k); eapply firstn_In_stdlib; exact Hin. }
  apply (Permutation_in _ (sort_desc_perm _)) in Hr.
  rewrite score_lines_filter in Hr.
  apply in_map_iff in Hr as (l0 & [= Hs <-] & Hl).
  apply filter_In in Hl as [Hl Hkeep].
  apply andb_true_iff in Hkeep as [Hblank Hpos].
  split; [exact Hl|]. split; [by apply negb_true_iff in Hblank|].
  apply Z.ltb_lt in Hpos. rewrite line_score_counts in Hpos.
  destruct (List.filter _ _) as [|word ws] eqn:Hf; [unfold len in Hpos; simpl in Hpos; lia|].
  assert (In word (List.filter
                     (fun word => PyStr.contains (PyStr.lower l0) word)
                     (PyStr.split_ws (PyStr.lower query)))) as Hw
    by (rewrite Hf; by left).
  apply filter_In in Hw as [Hw Hc]. by exists word.
Qed.

(** X14. The number of lines [keyword_search] returns, [m] being the
    number of matching lines: [min(top_k, m)] for [top_k >= 0], in
    particular none for [top_k = 0]; for a negative [top_k] the slice
    [scored_lines[:top_k]] drops the last [-top_k] lines instead, so
    [max(0, m + top_k)] lines are returned. *)
Theorem keyword_search_line_count full_text query top_k :
  let scored := score_lines (PyStr.lower query)
                            (PyStr.split_on (ascii_of_nat 10) full_text) in
  let lines := map snd (slice_to top_k (sort_desc scored)) in
  keyword_search full_text query top_k = PyStr.join PyStr.nl lines
  /\ len lines = (if 0 <=? top_k then Z.min top_k (len scored)
                  else Z.max 0 (len scored + top_k))
  /\ (top_k = 0 -> keyword_search full_text query top_k = "").
Proof.
  intros scored lines. split; [apply keyword_search_unfold|].
  assert (length (sort_desc scored) = length scored) as Hlen
    by apply Permutation_length, sort_desc_perm.
  split.
  - unfold lines, len, slice_to. rewrite length_map.
    destruct (0 <=? top_k) eqn:Hk; rewrite length_take, Hlen.
    + apply Z.leb_le in Hk. lia.
    + apply Z.leb_gt in Hk. lia.
  - intros ->. rewrite keyword_search_unfold. reflexivity.
Qed.

(** X15. A query without a token (empty or blank) and a text without a
    non-blank line both give the empty string. *)
Theorem keyword_search_nothing_to_match full_text query top_k :
  (PyStr.all_space query = true -> keyword_search full_text query top_k = "")
  /\ (Forall (fun line => PyStr.all_space line = true)
             (PyStr.split_on (ascii_of_nat 10) full_text) ->
      keyword_search full_text query top_k = "").
Proof.
  split; intros Hb; unfold keyword_search, keyword_search_body.
  - by rewrite score_lines_no_tokens by (by apply split_ws_blank).
  - by rewrite score_lines_blank_text.
Qed.

(** X16. Matching ignores the case of the query: the query and its
    lowercased form give the same result, and so do two queries with one
    lowercased form. *)
Theorem keyword_search_case_insensitive full_text query top_k :
  keyword_search full_text (PyStr.lower query) top_k
  = keyword_search full_text query top_k
  /\ (forall query', PyStr.lower query' = PyStr.lower query ->
        keyword_search full_text query' top_k = keyword_search full_text query top_k)
  /\ (forall line, line_score (PyStr.lower query) (PyStr.lower line)
                   = line_score (PyStr.lower query) line).
Proof.
  split; [|split].
  - unfold keyword_search, keyword_search_body. by rewrite lower_idempotent.
  - intros query' Hq. unfold keyword_search, keyword_search_body. by rewrite Hq.
  - intros line. unfold line_score, keyword_hits. by rewrite lower_idempotent.
Qed.

End KeywordSearchEdges.

(** ** Properties of the conversation memory *)

Section ConversationMemory.

(** A bounded deque holds the last [maxlen] items of all that was appended. *)
Lemma deque_append_last {A} (maxlen : nat) (appended : list A) (x : A) :
  deque_append maxlen (drop (length appended - maxlen) appended) x
  = drop (length (appended ++ [x]) - maxlen) (appended ++ [x]).
Proof.
  unfold deque_append. rewrite length_drop, length_app. simpl.
  destruct (Nat.ltb_spec (length appended - (length appended - maxlen)) maxlen)
    as [Hlt|Hge].
  - replace (length appended - maxlen)%nat with 0%nat by lia.
    replace (length appended + 1 - maxlen)%nat with 0%nat by lia.
    reflexivity.
  - rewrite <- drop_app_le by lia. rewrite drop_drop. f_equal. lia.
Qed.

Lemma exchange_messages_snoc exchanges ex :
  exchange_messages (exchanges ++ [ex])
  = ((exchange_messages exchanges ++ [{| role := "user"; content := fst ex |}])
     ++ [{| role := "assistant"; content := snd ex |}])%list.
Proof.
  unfold exchange_messages. rewrite flat_map_app. simpl.
  by rewrite <- app_assoc.
Qed.

Lemma exchange_messages_length exchanges :
  length (exchange_messages exchanges) = (2 * length exchanges)%nat.
Proof.
  induction exchanges as [|ex exs IH]; [done|].
  change (exchange_messages (ex :: exs))
    with ({| role := "user"; content := fst ex |}
          :: {| role := "assistant"; content := snd ex |}
          :: exchange_messages exs).
  simpl length. rewrite IH. lia.
Qed.

Lemma exchange_messages_drop k exchanges :
  drop (2 * k) (exchange_messages exchanges) = exchange_messages (drop k exchanges).
Proof.
  revert exchanges. induction k as [|k IH]; intros exchanges; [done|].
  destruct exchanges as [|ex exs]; [done|].
  replace (2 * S k)%nat with (S (S (2 * k))) by lia. simpl. apply IH.
Qed.

Lemma remember_all_last exchanges :
  remember_all chat_memory_initial exchanges
  = drop (length (exchange_messages exchanges) - chat_memory_maxlen)
         (exchange_messages exchanges).
Proof.
  induction exchanges as [|ex exs IH] using rev_ind; [done|].
  unfold remember_all in *. rewrite fold_left_app. simpl. rewrite IH.
  unfold remember_exchange.
  rewrite deque_append_last, deque_append_last, exchange_messages_snoc.
  reflexivity.
Qed.

Lemma remember_all_exchanges exchanges :
  remember_all chat_memory_initial exchanges
  = exchange_messages (drop (length exchanges - 5) exchanges)
  /\ length (remember_all chat_memory_initial exchanges)
     = Nat.min (2 * length exchanges) 10.
Proof.
  rewrite remember_all_last. unfold chat_memory_maxlen.
  rewrite exchange_messages_length. split.
  - replace (2 * length exchanges - 10)%nat with (2 * (length exchanges - 5))%nat by lia.
    apply exchange_messages_drop.
  - rewrite length_drop, exchange_messages_length. lia.
Qed.

(** X17. After any number of exchanges since start-up the memory holds the
    last ten messages of the conversation, that is the last five exchanges,
    whole and in order, each a [user] message followed by its [assistant]
    message; it never holds more than ten messages. *)
Theorem chat_memory_keeps_last_exchanges exchanges :
  let memory := remember_all chat_memory_initial exchanges in
  memory = drop (length (exchange_messages exchanges) - 10)
                (exchange_messages exchanges)
  /\ memory = exchange_messages (drop (length exchanges - 5) exchanges)
  /\ length memory = Nat.min (2 * length exchanges) 10.
Proof.
  intros memory. subst memory.
  split; [apply remember_all_last|]. apply remember_all_exchanges.
Qed.

Lemma copy_messages (l : list Message) :
  map (fun m => {| role := role m; content := content m |}) l = l.
Proof. induction l as [|[r c] l IH]; simpl; [done|]. by rewrite IH. Qed.

(** X18. The messages built for the model after a conversation: the system
    prompt when one is given and not empty, then the last five exchanges in
    order, then the new user message; at most twelve messages, the last one
    being the new user message. *)
Theorem build_messages_after_conversation exchanges user_message system_prompt :
  let system_messages :=
    match system_prompt with
    | Some sp =>
        if PyStr.truthy sp then [{| role := "system"; content := sp |}] else []
    | None => []
    end in
  let messages :=
    build_messages_with_context (remember_all chat_memory_initial exchanges)
                                user_message system_prompt in
  messages
  = (system_messages
     ++ exchange_messages (drop (length exchanges - 5) exchanges)
     ++ [{| role := "user"; content := user_message |}])%list
  /\ last messages = Some {| role := "user"; content := user_message |}
  /\ (length messages <= 12)%nat.
Proof.
  intros system_messages messages.
  destruct (remember_all_exchanges exchanges) as (Hmem & Hlen).
  assert (messages
          = (system_messages
             ++ remember_all chat_memory_initial exchanges
             ++ [{| role := "user"; content := user_message |}])%list) as Hshape.
  { unfold messages, build_messages_with_context, get_context_window.
    rewrite copy_messages. fold system_messages. by rewrite <- app_assoc. }
  split; [by rewrite Hshape, Hmem|]. split.
  - rewrite Hshape, !app_assoc. apply last_snoc.
  - rewrite Hshape, !length_app, Hlen. simpl.
    assert (length system_messages <= 1)%nat.
    { unfold system_messages. destruct system_prompt as [sp|]; [|simpl; lia].
      destruct (PyStr.truthy sp); simpl; lia. }
    lia.
Qed.

End ConversationMemory.

(** ** Properties of the streamed frames *)

Section StreamFrames.

Lemma string_app_assoc (a b c : string) : (a ++ b) ++ c = a ++ (b ++ c).
Proof.
  induction a as [|x a IH]; [reflexivity|].
  change (String x ((a ++ b) ++ c) = String x (a ++ (b ++ c))). by f_equal.
Qed.

Lemma string_app_cons x (a b : string) : String x a ++ b = String x (a ++ b).
Proof. reflexivity. Qed.

Lemma string_app_nil (b : string) : EmptyString ++ b = b.
Proof. reflexivity. Qed.

Lemma string_app_nil_r (a : string) : a ++ EmptyString = a.
Proof.
  induction a as [|x a IH]; [reflexivity|]. rewrite string_app_cons. by f_equal.
Qed.

Lemma replace_char_app old new a b :
  replace_char old new (a ++ b) = replace_char old new a ++ replace_char old new b.
Proof.
  induction a as [|c a IH]; simpl; [done|].
  destruct (Ascii.eqb c old); simpl; rewrite IH; [|done].
  by rewrite string_app_assoc.
Qed.

Lemma escaped_chunk_app a b :
  escaped_chunk (a ++ b) = escaped_chunk a ++ escaped_chunk b.
Proof. unfold escaped_chunk. by rewrite !replace_char_app. Qed.

(** One character: a backslash, a quote and a newline become two characters
    that begin with a backslash, any other character stays. *)
Lemma escaped_chunk_char c :
  (c = backslash
   /\ escaped_chunk (String c EmptyString)
      = String backslash (String backslash EmptyString))
  \/ (c = dquote
      /\ escaped_chunk (String c EmptyString)
         = String backslash (String dquote EmptyString))
  \/ (c = newline
      /\ escaped_chunk (String c EmptyString) = String backslash "n")
  \/ (c <> backslash /\ c <> newline
      /\ escaped_chunk (String c EmptyString) = String c EmptyString).
Proof.
  destruct c as [[] [] [] [] [] [] [] []];
    first [ left; split; reflexivity
          | right; left; split; reflexivity
          | right; right; left; split; reflexivity
          | right; right; right; split; [discriminate|split; [discriminate|reflexivity]] ].
Qed.

Lemma escaped_chunk_cons c s :
  escaped_chunk (String c s) = escaped_chunk (String c EmptyString) ++ escaped_chunk s.
Proof. by rewrite <- escaped_chunk_app. Qed.

Lemma contains_nl_cons c s :
  PyStr.contains (String c s) PyStr.nl
  = Ascii.eqb newline c || PyStr.contains s PyStr.nl.
Proof.
  assert (PyStr.startswith s EmptyString = true) as Hs by (by destruct s).
  change (PyStr.contains (String c s) PyStr.nl)
    with (Ascii.eqb newline c && PyStr.startswith s EmptyString
          || PyStr.contains s PyStr.nl).
  by rewrite Hs, andb_true_r.
Qed.

Lemma escaped_chunk_no_newline chunk :
  PyStr.contains (escaped_chunk chunk) PyStr.nl = false.
Proof.
  induction chunk as [|c chunk IH]; [reflexivity|].
  rewrite escaped_chunk_cons.
  destruct (escaped_chunk_char c)
    as [[_ ->]|[[_ ->]|[[_ ->]|(_ & Hnl & ->)]]];
    rewrite !string_app_cons, string_app_nil, !contains_nl_cons, IH;
    try reflexivity.
  rewrite orb_false_r. apply Ascii.eqb_neq. congruence.
Qed.

Lemma split_on_cons sep s : exists w ws, PyStr.split_on sep s = w :: ws.
Proof.
  induction s as [|c s (w & ws & IH)]; simpl; [by eexists _, _|].
  destruct (Ascii.eqb c sep); [by eexists _, _|]. rewrite IH. by eexists _, _.
Qed.

(** Splitting at newlines a text whose head holds none. *)
Lemma split_on_app_no_newline a b :
  PyStr.contains a PyStr.nl = false ->
  PyStr.split_on newline (a ++ b)
  = match PyStr.split_on newline b with
    | w :: ws => (a ++ w) :: ws
    | [] => [a]
    end.
Proof.
  destruct (split_on_cons newline b) as (w & ws & Hb). rewrite Hb.
  induction a as [|c a IH]; intros Hno.
  - by rewrite !string_app_nil.
  - rewrite contains_nl_cons in Hno. apply orb_false_iff in Hno as [Hc Ha].
    rewrite !string_app_cons. cbn [PyStr.split_on].
    rewrite Ascii.eqb_sym, Hc, (IH Ha). reflexivity.
Qed.

(** X19. The frame of a streamed chunk is one line followed by one empty
    line, whatever the chunk holds: the escaped chunk contains no newline,
    so the only newlines of the frame are the two that end it. *)
Theorem content_frame_is_one_line chunk :
  PyStr.contains (escaped_chunk chunk) PyStr.nl = false
  /\ PyStr.split_on newline (content_frame chunk)
     = ["data: " ++ content_payload chunk; EmptyString; EmptyString].
Proof.
  split; [apply escaped_chunk_no_newline|].
  unfold content_frame. rewrite <- string_app_assoc.
  rewrite split_on_app_no_newline.
  { change (PyStr.split_on newline (String newline (String newline EmptyString)))
      with [EmptyString; EmptyString; EmptyString].
    cbv iota. by rewrite string_app_nil_r. }
  unfold content_payload.
  assert (forall a b, PyStr.contains a PyStr.nl = false ->
                      PyStr.contains b PyStr.nl = false ->
                      PyStr.contains (a ++ b) PyStr.nl = false) as Happ.
  { intros a b Ha Hb. induction a as [|c a IH]; [exact Hb|].
    rewrite contains_nl_cons in Ha. apply orb_false_iff in Ha as [Hc Ha].
    change (String c a ++ b) with (String c (a ++ b)).
    rewrite contains_nl_cons, Hc, (IH Ha). reflexivity. }
  repeat (apply Happ; [first [reflexivity|apply escaped_chunk_no_newline]|]).
  reflexivity.
Qed.

(** X20. Escaping loses nothing: two chunks with one escaped form are
    equal. *)
Theorem escaped_chunk_injective a b :
  escaped_chunk a = escaped_chunk b -> a = b.
Proof.
  revert b. induction a as [|c a IH]; intros [|c' b] Heq.
  - reflexivity.
  - rewrite escaped_chunk_cons in Heq.
    destruct (escaped_chunk_char c') as [[_ Hc]|[[_ Hc]|[[_ Hc]|(_ & _ & Hc)]]];
      rewrite Hc in Heq; discriminate.
  - rewrite escaped_chunk_cons in Heq.
    destruct (escaped_chunk_char c) as [[_ Hc]|[[_ Hc]|[[_ Hc]|(_ & _ & Hc)]]];
      rewrite Hc in Heq; discriminate.
  - rewrite (escaped_chunk_cons c), (escaped_chunk_cons c') in Heq.
    destruct (escaped_chunk_char c) as [[-> Hc]|[[-> Hc]|[[-> Hc]|(Hb & _ & Hc)]]];
      destruct (escaped_chunk_char c') as [[-> Hc']|[[-> Hc']|[[-> Hc']|(Hb' & _ & Hc')]]];
      rewrite ?Hc, ?Hc' in Heq; rewrite ?string_app_cons, ?string_app_nil in Heq.
    all: try (injection Heq as Heq; by rewrite (IH _ Heq)).
    all: try (injection Heq as Heq; discriminate).
    all: try (injection Heq as Hh Heq; congruence).
    injection Heq as -> Heq. by rewrite (IH _ Heq).
Qed.

End StreamFrames.

(** ** Properties of the upload handlers *)

Section HandlerProperties.
Context {VS : VectorSpace} {EM : EmbeddingModel} {TS : TextSplitter}.

Lemma truthy_strip t : PyStr.truthy (PyStr.strip t) = negb (PyStr.all_space t).
Proof.
  rewrite <- strip_nonblank. by destruct (PyStr.strip t).
Qed.

Lemma all_space_not_truthy t :
  PyStr.all_space t = true ->
  PyStr.truthy t = false \/ PyStr.truthy (PyStr.strip t) = false.
Proof. intros Hb. right. by rewrite truthy_strip, Hb. Qed.

Lemma nonblank_truthy t :
  PyStr.all_space t = false ->
  PyStr.truthy t = true /\ PyStr.truthy (PyStr.strip t) = true.
Proof.
  intros Hb. split; [by destruct t|]. by rewrite truthy_strip, Hb.
Qed.

Lemma chunk_and_store_found env text c dk source cs co :
  source_exists c source = true ->
  chunk_and_store env text c dk source cs co = (Return (0, true), c, dk).
Proof. intros Hex. unfold chunk_and_store. by rewrite Hex. Qed.

(** The three ends of [chunk_and_store], as an upload handler sees them. *)
Lemma chunk_and_store_ends env text c dk filename r c1 dk1 :
  chunk_and_store env text c dk (Some filename)
                  default_chunk_size default_chunk_overlap = (r, c1, dk1) ->
  match r with
  | Raise _ => c1 = c /\ dk1 = dk
  | Return (n, true) =>
      c1 = c /\ dk1 = dk /\ source_exists c (Some filename) = true
  | Return (n, false) =>
      source_exists c (Some filename) = false /\ 0 <= n /\ count c1 = count c + n
  end.
Proof.
  intros Hrun. destruct r as [[n b]|e].
  - apply chunk_and_store_returns in Hrun
      as [(Hex & -> & -> & -> & ->)|(chunks & Hex & _ & -> & -> & Hdocs & _ & _)].
    + done.
    + split; [done|]. unfold count, len. rewrite Hdocs, length_app. lia.
  - by apply chunk_and_store_raise_unchanged in Hrun.
Qed.

Ltac handler_cases env file_bytes :=
  destruct (tmp_write env) as [e0|];
  [ | destruct (transcribe_audio env file_bytes) as [transcript|e0];
      [ destruct (PyStr.truthy transcript) eqn:Htruthy; simpl;
        [ destruct (PyStr.truthy (PyStr.strip transcript)) eqn:Hstrip; simpl | ]
      | ] ].

(** X21. A transcript that is empty or blank ends the upload with the
    status [error]: nothing is chunked or stored, the collection and the
    persisted files are as they were, for audio and for video. *)
Theorem upload_without_speech env file_bytes filename c dk transcript :
  tmp_write env = None ->
  transcribe_audio env file_bytes = Return transcript ->
  PyStr.all_space transcript = true ->
  (exists r, process_audio env file_bytes filename c dk = (Return r, c, dk)
             /\ status r = "error" /\ duplicate r = false)
  /\ (exists r, process_video env file_bytes filename c dk = (Return r, c, dk)
                /\ status r = "error" /\ duplicate r = false).
Proof.
  intros Hw Ht Hb. unfold process_audio, process_video. rewrite Hw, Ht.
  destruct (PyStr.truthy transcript) eqn:Htruthy; simpl.
  - rewrite truthy_strip, Hb. simpl. split; eexists; done.
  - split; eexists; done.
Qed.

(** X22. What [process_audio] and [process_video] do to the collection, by
    their result: when they raise or answer with the status [error] the
    collection and the persisted files are as they were; when they report a
    duplicate the file name was already stored as a source and nothing has
    changed; otherwise the source was new and [count()] has grown by the
    number of chunks in the message. *)
Theorem upload_effects env file_bytes filename c dk :
  upload_effect (fun n => "Processed " ++ str_int n ++ " chunks from audio.")
                filename c dk (process_audio env file_bytes filename c dk)
  /\ upload_effect (fun n => "Processed " ++ str_int n ++ " chunks from video.")
                   filename c dk (process_video env file_bytes filename c dk).
Proof.
  split.
  - unfold upload_effect, process_audio. handler_cases env file_bytes; try done.
    + destruct (chunk_and_store _ _ _ _ _ _ _) as [[r c1] dk1] eqn:Hrun.
      apply chunk_and_store_ends in Hrun.
      destruct r as [[n [|]]|e]; [|destruct Hrun as (? & ? & ?)|done].
      * destruct Hrun as (-> & -> & ?). right. left. done.
      * right. right. do 3 (split; [done|]). by exists n.
    + left. done.
    + left. done.
  - unfold upload_effect, process_video. handler_cases env file_bytes; try done.
    + destruct (chunk_and_store _ _ _ _ _ _ _) as [[r c1] dk1] eqn:Hrun.
      apply chunk_and_store_ends in Hrun.
      destruct r as [[n [|]]|e]; [|destruct Hrun as (? & ? & ?)|done].
      * destruct Hrun as (-> & -> & ?). right. left. done.
      * right. right. do 3 (split; [done|]). by exists n.
    + left. done.
    + left. done.
Qed.

(** X23. Uploading a file name twice: on a collection that satisfies I1,
    after an upload under a non-empty file name that succeeded (as a
    duplicate, or having stored at least one chunk), any later upload under
    this name whose transcript is not blank is answered as a duplicate and
    leaves the collection and the persisted files as they are, for audio and
    for video. *)
Theorem reupload_is_duplicate env1 env2 bytes1 bytes2 filename c dk transcript2 :
  I1 c -> PyStr.truthy filename = true ->
  tmp_write env2 = None ->
  transcribe_audio env2 bytes2 = Return transcript2 ->
  PyStr.all_space transcript2 = false ->
  (forall r1 c1 dk1,
      process_audio env1 bytes1 filename c dk = (Return r1, c1, dk1) ->
      status r1 = "success" -> duplicate r1 = true \/ count c < count c1 ->
      exists r2,
        process_audio env2 bytes2 filename c1 dk1 = (Return r2, c1, dk1)
        /\ status r2 = "success" /\ duplicate r2 = true)
  /\ (forall r1 c1 dk1,
        process_video env1 bytes1 filename c dk = (Return r1, c1, dk1) ->
        status r1 = "success" -> duplicate r1 = true \/ count c < count c1 ->
        exists r2,
          process_video env2 bytes2 filename c1 dk1 = (Return r2, c1, dk1)
          /\ status r2 = "success" /\ duplicate r2 = true).
Proof.
  intros HI Hname Hw2 Ht2 Hb2.
  destruct (nonblank_truthy _ Hb2) as [Htr2 Hst2].
  assert (forall env text n b c1 dk1,
             chunk_and_store env text c dk (Some filename)
                             default_chunk_size default_chunk_overlap
             = (Return (n, b), c1, dk1) ->
             b = true \/ count c < count c1 ->
             source_exists c1 (Some filename) = true) as Hstored.
  { intros env text n b c1 dk1 Hrun Hgrew.
    apply (source_exists_after_store env text c dk filename _ _ n b c1 dk1 HI Hname Hrun).
    destruct Hgrew as [->|Hgrew]; [by left|].
    apply chunk_and_store_ends in Hrun. destruct b; [by left|right].
    destruct Hrun as (_ & _ & Hcount). lia. }
  split; intros r1 c1 dk1 Hrun Hstatus Hgrew.
  - unfold process_audio in Hrun. revert Hrun. handler_cases env1 bytes1;
      try (intros [= <- _ _]; discriminate); try discriminate.
    destruct (chunk_and_store _ _ _ _ _ _ _) as [[r c'] dk'] eqn:Hcs.
    destruct r as [[n b]|e]; [|discriminate].
    intros Hret.
    assert (c' = c1 /\ dk' = dk1 /\ duplicate r1 = b) as (-> & -> & Hdup)
      by (destruct b; injection Hret as <- <- <-; done).
    rewrite Hdup in Hgrew. unfold process_audio. rewrite Hw2, Ht2, Htr2, Hst2. simpl.
    rewrite chunk_and_store_found by (eapply Hstored; eassumption).
    eexists. done.
  - unfold process_video in Hrun. revert Hrun. handler_cases env1 bytes1;
      try (intros [= <- _ _]; discriminate); try discriminate.
    destruct (chunk_and_store _ _ _ _ _ _ _) as [[r c'] dk'] eqn:Hcs.
    destruct r as [[n b]|e]; [|discriminate].
    intros Hret.
    assert (c' = c1 /\ dk' = dk1 /\ duplicate r1 = b) as (-> & -> & Hdup)
      by (destruct b; injection Hret as <- <- <-; done).
    rewrite Hdup in Hgrew. unfold process_video. rewrite Hw2, Ht2, Htr2, Hst2. simpl.
    rewrite chunk_and_store_found by (eapply Hstored; eassumption).
    eexists. done.
Qed.

Lemma substring_prefix_length n s : (String.length (String.substring 0 n s) <= n)%nat.
Proof.
  revert s. induction n as [|n IH]; intros [|c s]; simpl; try lia.
  specialize (IH s). lia.
Qed.

Lemma string_app_length (a b : string) :
  String.length (a ++ b) = (String.length a + String.length b)%nat.
Proof.
  induction a as [|x a IH]; [reflexivity|].
  rewrite string_app_cons. simpl. by rewrite IH.
Qed.

(** X24. What [process_image] does, by its result: when it raises (the
    image cannot be opened, no client, the model is not available, the
    analysis failed or is blank, or storing failed) the collection and the
    persisted files are as they were; a duplicate changes nothing and
    carries no preview; otherwise the analysis was not blank, [count()] has
    grown by the number of chunks in the message, and the preview is the
    analysis itself when it has at most 200 characters, else its first 200
    characters followed by three dots, so at most 203 characters. *)
Theorem process_image_effects env file_bytes filename c dk vision_model :
  let '(res, c1, dk1) := process_image env file_bytes filename c dk vision_model in
  match res with
  | ImageRaise _ => c1 = c /\ dk1 = dk
  | ImageReturn r =>
      i_status r = "success"
      /\ ((i_duplicate r = true /\ analysis_preview r = None
           /\ c1 = c /\ dk1 = dk /\ source_exists c (Some filename) = true)
          \/ (i_duplicate r = false
              /\ source_exists c (Some filename) = false
              /\ exists n analysis preview,
                   send_ollama_vision env vision_model vision_prompt file_bytes
                   = inl analysis
                   /\ PyStr.all_space analysis = false
                   /\ i_message r = "Processed " ++ str_int n
                                    ++ " chunks from image using " ++ vision_model ++ "."
                   /\ count c1 = count c + n
                   /\ analysis_preview r = Some preview
                   /\ (String.length preview <= 203)%nat
                   /\ ((String.length analysis <= 200)%nat -> preview = analysis)
                   /\ ((200 < String.length analysis)%nat ->
                       preview = String.substring 0 200 analysis ++ "...")))
  end.
Proof.
  unfold process_image.
  destruct (image_open env) as [e|]; [done|].
  destruct (ollama_client env); simpl; [|done].
  destruct (ensure_ollama_model env vision_model); simpl; [|done].
  destruct (send_ollama_vision env vision_model vision_prompt file_bytes)
    as [analysis|err]; [|done].
  rewrite truthy_strip, negb_involutive.
  destruct (PyStr.all_space analysis) eqn:Hblank; [done|].
  destruct (chunk_and_store _ _ _ _ _ _ _) as [[r c1] dk1] eqn:Hrun.
  destruct r as [[n b]|e].
  - apply chunk_and_store_returns in Hrun
      as [(Hex & -> & -> & -> & ->)|(chunks & Hex & _ & -> & -> & Hdocs & _ & _)].
    + split; [done|]. left. done.
    + split; [done|]. right. do 2 (split; [done|]).
      eexists _, analysis, _. do 3 (split; [reflexivity || done|]).
      split; [unfold count, len; rewrite Hdocs, length_app; lia|].
      split; [reflexivity|].
      destruct (Z.ltb_spec 200 (Z.of_nat (String.length analysis))) as [Hlong|Hshort].
      * split; [|split; [lia|done]].
        rewrite string_app_length. pose proof (substring_prefix_length 200 analysis).
        simpl. lia.
      * split; [lia|]. split; [done|lia].
  - by apply chunk_and_store_raise_unchanged in Hrun.
Qed.

End HandlerProperties.

(** ** The properties on concrete runs *)

Module Scenarios.
Import Demo.
#[local] Existing Instances Demo.space Demo.model Demo.splitter.

Lemma space_laws : VectorSpaceLaws.
Proof.
  split; simpl.
  - intros a b. destruct (Z.leb_spec a b); [by left|right]. apply Z.leb_le. lia.
  - intros a b c Hab Hbc. apply Z.leb_le in Hab, Hbc. apply Z.leb_le. lia.
Qed.

Lemma model_laws : EmbeddingModelLaws.
Proof. split. intros texts rows [= <-]. apply length_map. Qed.

Lemma I1_fresh : I1 fresh.
Proof. repeat split. Qed.

Lemma first_upload_run : first_upload = (Return (1, false), stored, stored_disk).
Proof. vm_compute. reflexivity. Qed.

Example library_query :
  query library ["xx"] 5
  = Return {| q_documents := [["bb"; "a"; "ccc"]];
              q_distances := [[0; 1; 1]];
              q_metadatas := [[∅; ∅; ∅]] |}.
Proof. vm_compute. reflexivity. Qed.

(** [add] keeps I1 on the first upload. *)
Lemma I1_invariant_witness :
  I1 fresh
  /\ add_precondition ["uuid-0"] (Some ["hello world"]) (Some [{[ "source" := "a.pdf" ]}])
  /\ let '(_, c', dk') :=
       add io_ok fresh no_disk ["uuid-0"] (Some ["hello world"])
           (Some [{[ "source" := "a.pdf" ]}]) in
     I1 c'
     /\ (disk_I1 no_disk -> makedirs_ok io_ok = true ->
         write_index io_ok = WriteOk -> write_meta io_ok = WriteOk ->
         disk_I1 dk').
Proof.
  split; [exact I1_fresh|]. split; [by split|].
  apply (proj2 (proj2 (I1_invariant (EML := model_laws))));
    [exact I1_fresh|by split].
Defined.

(** Two adds, the second losing its metadata file, then a restart: the
    index read back has two rows, the lists have one entry. *)
Lemma I1_lost_after_reload :
  I1 stored
  /\ add_precondition ["uuid-1"] (Some ["second text"]) (Some [{[ "source" := "b.pdf" ]}])
  /\ fst (fst second_add) = Return tt
  /\ ntotal (index restarted) = 2%nat
  /\ length (documents restarted) = 1%nat
  /\ ~ I1 restarted.
Proof.
  split; [repeat split|]. split; [by split|].
  split; [vm_compute; reflexivity|]. split; [vm_compute; reflexivity|].
  split; [vm_compute; reflexivity|].
  intros (_ & _ & Hm). vm_compute in Hm. discriminate.
Qed.

(** C2: the persist directory cannot be written, [_persist] fails inside,
    and [add] returns normally with the entry in memory only. *)
Theorem add_swallows_write_failure :
  let '(r, c', dk') :=
    add io_readonly fresh no_disk ["uuid-0"] (Some ["hello world"])
        (Some [{[ "source" := "a.pdf" ]}]) in
  fst (_persist_body io_readonly c' no_disk) = Raise OSError
  /\ r = Return tt
  /\ count c' = 1
  /\ dk' = no_disk.
Proof. vm_compute. repeat split. Qed.

Lemma readd_same_source_witness :
  I1 fresh /\ PyStr.truthy "a.pdf" = true
  /\ chunk_and_store io_ok "hello world" fresh no_disk (Some "a.pdf") 1000 200
     = (Return (1, false), stored, stored_disk)
  /\ exists c2 dk2,
       chunk_and_store io_ok "hello world" stored stored_disk (Some "a.pdf") 1000 200
       = (Return (0, true), c2, dk2)
       /\ c2 = stored /\ dk2 = stored_disk /\ count c2 = count stored.
Proof.
  split; [exact I1_fresh|]. split; [reflexivity|]. split; [exact first_upload_run|].
  apply (readd_same_source io_ok io_ok "hello world" "hello world" fresh no_disk
           "a.pdf" 1000 200 1000 200 1 false stored stored_disk);
    [exact I1_fresh|reflexivity|exact first_upload_run|right; lia].
Defined.

(** With the empty string as source nothing is checked: the second upload
    stores the text again. *)
Lemma readd_empty_source_stores_again :
  let '(r1, c1, dk1) := upload_empty_source fresh no_disk in
  let '(r2, c2, dk2) := upload_empty_source c1 dk1 in
  r1 = Return (1, false) /\ r2 = Return (1, false)
  /\ r2 <> Return (0, true)
  /\ count c1 = 1 /\ count c2 = 2.
Proof. vm_compute. repeat split. discriminate. Qed.

(** An upload of an empty text stores nothing, so the second upload of the
    source does not find it. *)
Example readd_empty_text :
  let '(r1, c1, dk1) :=
    chunk_and_store io_ok "" fresh no_disk (Some "a.pdf") 1000 200 in
  let '(r2, c2, dk2) :=
    chunk_and_store io_ok "" c1 dk1 (Some "a.pdf") 1000 200 in
  r1 = Return (0, false) /\ r2 = Return (0, false) /\ count c2 = 0.
Proof. vm_compute. repeat split. Qed.

Lemma empty_source_run :
  upload_empty_source fresh no_disk
  = (Return (1, false), snd (fst (upload_empty_source fresh no_disk)),
     snd (upload_empty_source fresh no_disk)).
Proof. vm_compute. reflexivity. Qed.

(** The first upload under [a.pdf] stores one dictionary with the source;
    an upload with the empty string as source stores one empty dictionary. *)
Lemma stored_metadata_has_source_witness :
  chunk_and_store io_ok "hello world" fresh no_disk (Some "a.pdf") 1000 200
  = (Return (1, false), stored, stored_disk)
  /\ (exists new,
         metadatas stored = (metadatas fresh ++ new)%list
         /\ len new = 1
         /\ Forall (fun meta => meta = {[ "source" := "a.pdf" ]}
                                /\ meta !! "source" = Some "a.pdf") new)
  /\ (exists new,
         metadatas (snd (fst (upload_empty_source fresh no_disk)))
         = (metadatas fresh ++ new)%list
         /\ len new = 1
         /\ Forall (fun meta : gmap string string =>
                      meta = ∅ /\ meta !! "source" = None) new).
Proof.
  split; [exact first_upload_run|]. split.
  - destruct (proj1 stored_metadata_has_source io_ok "hello world" fresh no_disk
                (Some "a.pdf") 1000 200 1 stored stored_disk first_upload_run)
      as (new & Hm & Hl & Hsrc & _).
    exists new. split; [exact Hm|]. split; [exact Hl|].
    exact (Hsrc "a.pdf" eq_refl eq_refl).
  - destruct (proj1 stored_metadata_has_source io_ok "hello world" fresh no_disk
                (Some EmptyString) default_chunk_size default_chunk_overlap 1 _ _
                empty_source_run)
      as (new & Hm & Hl & _ & Hempty).
    exists new. split; [exact Hm|]. split; [exact Hl|].
    apply Hempty. by right.
Defined.

(** An upload without a source stores a dictionary without the key. *)
Lemma no_source_no_key :
  let '(r, c1, _) := upload_no_source in
  r = Return (1, false)
  /\ metadatas c1 = [∅]
  /\ ~ Forall (fun meta : gmap string string => is_Some (meta !! "source"))
              (metadatas c1).
Proof.
  vm_compute. split; [reflexivity|]. split; [reflexivity|].
  intros Hall. inversion Hall as [|? ? [v Hv] _]. discriminate.
Qed.

(** One document, [n_results = 5]: nothing to slice and nothing to join. *)
Example retrieve_one_document :
  coll_query stored ["hello"] (Z.min (5 * 2) 1) = Return stored_answer
  /\ retrieve_context "hello" stored 5 None = ("hello world", "semantic").
Proof. split; vm_compute; reflexivity. Qed.

(** Five documents, [n_results = 2]: [query] is asked for
    [min(2 * 2, 5) = 4] results and returns four documents by distance; the
    context is the first two, with the blank line between them. *)
Lemma retrieve_semantic_witness :
  coll_count shelf = Return 5 /\ 5 <> 0
  /\ coll_query shelf ["xx"] (Z.min (2 * 2) 5) = Return shelf_answer
  /\ q_documents shelf_answer = [["bb"; "a"; "ccc"; "dddd"]]
  /\ ["bb"; "a"; "ccc"; "dddd"] <> ([] : list string)
  /\ (retrieve_context "xx" shelf 2 None
      = (PyStr.join blank_line (slice_to 2 ["bb"; "a"; "ccc"; "dddd"]), "semantic")
      /\ (0 <= 2 -> slice_to 2 ["bb"; "a"; "ccc"; "dddd"]
                    = firstn (Z.to_nat 2) ["bb"; "a"; "ccc"; "dddd"])
      /\ blank_line = String (ascii_of_nat 10) (String (ascii_of_nat 10) EmptyString)
      /\ PyStr.join blank_line [] = EmptyString
      /\ (forall doc, PyStr.join blank_line [doc] = doc)
      /\ (forall doc doc' more,
            PyStr.join blank_line (doc :: doc' :: more)
            = doc ++ blank_line ++ PyStr.join blank_line (doc' :: more)))
  /\ retrieve_context "xx" shelf 2 None
     = ("bb" ++ PyStr.nl ++ PyStr.nl ++ "a", "semantic")
  /\ slice_to 2 ["bb"; "a"; "ccc"; "dddd"] = ["bb"; "a"].
Proof.
  assert (coll_count shelf = Return 5) as Hc by (vm_compute; reflexivity).
  assert (coll_query shelf ["xx"] (Z.min (2 * 2) 5) = Return shelf_answer) as Hq
    by (vm_compute; reflexivity).
  split; [exact Hc|]. split; [lia|]. split; [exact Hq|]. split; [reflexivity|].
  split; [discriminate|]. split.
  - apply (retrieve_semantic "xx" shelf 2 None 5 shelf_answer
             ["bb"; "a"; "ccc"; "dddd"] []);
      [exact Hc|lia|exact Hq|reflexivity|discriminate].
  - split; vm_compute; reflexivity.
Defined.

(** With the default [n_results = 5] the keyword path returns four lines:
    more than the default [top_k = 3] of [keyword_search], which
    [retrieve_context] never uses. *)
Lemma keyword_path_uses_n_results :
  retrieve_context (Coll := silent) "fruit" tt default_n_results (Some four_fruits)
  = (four_fruits, "keyword")
  /\ len (PyStr.split_on (ascii_of_nat 10) four_fruits) = 4
  /\ keyword_search_default_top_k < 4
  /\ keyword_search four_fruits "fruit" keyword_search_default_top_k <> four_fruits.
Proof. vm_compute. repeat split; discriminate. Qed.

Lemma keyword_fallback_bound_witness :
  retrieve_context (Coll := silent) "fruit" tt 5 (Some four_fruits)
  = (four_fruits, "keyword")
  /\ exists ft lines,
       Some four_fruits = Some ft
       /\ four_fruits = keyword_search ft "fruit" 5
       /\ four_fruits = PyStr.join PyStr.nl lines
       /\ (0 <= 5 -> len lines <= 5)
       /\ (forall line, In line lines ->
                        In line (PyStr.split_on (ascii_of_nat 10) ft)).
Proof.
  split; [vm_compute; reflexivity|].
  apply (keyword_fallback_bound (Coll := silent) "fruit" tt 5
           (Some four_fruits) four_fruits).
  vm_compute; reflexivity.
Defined.

Lemma query_ranked_witness :
  query library ["xx"] 5 = Return library_answer
  /\ exists docs dists rows,
       q_documents library_answer = [docs] /\ q_distances library_answer = [dists]
       /\ length rows = length dists
       /\ length dists
          = Nat.min (Z.to_nat (Z.min 5 (count library))) (ntotal (index library))
       /\ StronglySorted (fun a b => dle a b = true) dists
       /\ NoDup rows
       /\ (forall qv, encode ["xx"] = Return [qv] ->
           forall p i, rows !! p = Some i ->
             exists v, xb (index library) !! i = Some v
                       /\ dists !! p = Some (l2 qv v))
       /\ ((ntotal (index library) <= Z.to_nat (Z.min 5 (count library)))%nat ->
           Permutation rows (seq 0 (ntotal (index library))))
       /\ docs = omap (fun i => documents library !! i) rows
       /\ (I1 library ->
           length docs = length dists
           /\ forall p i, rows !! p = Some i ->
                exists doc, documents library !! i = Some doc
                            /\ docs !! p = Some doc).
Proof.
  assert (query library ["xx"] 5 = Return library_answer) as Hq
    by (vm_compute; reflexivity).
  split; [exact Hq|].
  exact (query_ranked (VSL := space_laws) (EML := model_laws)
           library "xx" 5 library_answer Hq).
Defined.

End Scenarios.

(** ** The further properties on concrete runs *)

Module MoreScenarios.
Import Demo.
#[local] Existing Instances Demo.space Demo.model Demo.splitter.

Lemma first_add_run : first_add = (Return tt, added, added_disk).
Proof. vm_compute. reflexivity. Qed.

Lemma hello_not_empty : ["hello world"] <> ([] : list string).
Proof. discriminate. Qed.

Lemma I1_stored : I1 stored.
Proof. vm_compute. repeat split. Qed.

Lemma I1_library : I1 library.
Proof. vm_compute. repeat split. Qed.

Lemma narrow_add_run :
  add io_ok narrow narrow_disk ["uuid-0"] (Some ["hello world"]) None
  = (Raise DimensionMismatch, narrow, narrow_disk).
Proof. vm_compute. reflexivity. Qed.

Lemma narrow_upload_run :
  chunk_and_store io_ok "hello world" narrow narrow_disk (Some "a.pdf") 1000 200
  = (Raise DimensionMismatch, narrow, narrow_disk).
Proof. vm_compute. reflexivity. Qed.

Lemma reload_after_add_witness :
  add io_ok fresh no_disk ["uuid-0"] (Some ["hello world"])
      (Some [{[ "source" := "a.pdf" ]}]) = (Return tt, added, added_disk)
  /\ let reloaded := __init__ (name fresh) (persist_dir fresh) added_disk in
     index reloaded = index added
     /\ ids reloaded = ids added
     /\ documents reloaded = documents added
     /\ metadatas reloaded = metadatas added
     /\ count reloaded = count added
     /\ name reloaded = name added /\ persist_dir reloaded = persist_dir added.
Proof.
  split; [exact first_add_run|].
  exact (reload_after_add io_ok fresh no_disk ["uuid-0"] ["hello world"]
           (Some [{[ "source" := "a.pdf" ]}]) added added_disk
           hello_not_empty eq_refl eq_refl eq_refl first_add_run).
Defined.

Lemma add_appends_witness :
  exists rows,
    encode ["hello world"] = Return rows
    /\ xb (index added) = (xb (index fresh) ++ rows)%list
    /\ documents added = (documents fresh ++ ["hello world"])%list
    /\ ids added = (ids fresh ++ ["uuid-0"])%list
    /\ metadatas added
       = (metadatas fresh
          ++ (if truthy_list (Some [({[ "source" := "a.pdf" ]} : gmap string string)])
              then default [] (Some [({[ "source" := "a.pdf" ]} : gmap string string)])
              else map (fun _ => ∅) ["hello world"]))%list
    /\ count added = count fresh + len ["hello world"]
    /\ (forall i, (i < length (documents fresh))%nat ->
                  documents added !! i = documents fresh !! i)
    /\ (forall i, (i < length (ids fresh))%nat -> ids added !! i = ids fresh !! i)
    /\ (forall i, (i < length (metadatas fresh))%nat ->
                  metadatas added !! i = metadatas fresh !! i)
    /\ (forall i, (i < ntotal (index fresh))%nat ->
                  xb (index added) !! i = xb (index fresh) !! i).
Proof.
  exact (add_appends io_ok fresh no_disk ["uuid-0"] ["hello world"]
           (Some [{[ "source" := "a.pdf" ]}]) added added_disk
           hello_not_empty first_add_run).
Defined.

Lemma add_raise_keeps_state_witness :
  add io_ok narrow narrow_disk ["uuid-0"] (Some ["hello world"]) None
  = (Raise DimensionMismatch, narrow, narrow_disk)
  /\ narrow = narrow /\ narrow_disk = narrow_disk
  /\ exists docs, Some ["hello world"] = Some docs
       /\ (encode docs = Raise DimensionMismatch
           \/ exists rows, encode docs = Return rows
                /\ index_add (index narrow) rows = Raise DimensionMismatch).
Proof.
  split; [exact narrow_add_run|].
  exact (add_raise_keeps_state io_ok narrow narrow_disk ["uuid-0"]
           (Some ["hello world"]) None DimensionMismatch narrow narrow_disk
           narrow_add_run).
Defined.

Lemma get_returns_matching_witness :
  I1 stored
  /\ let selected :=
       List.filter (fun t => where_matches {[ "source" := "a.pdf" ]} (snd t))
                   (entries stored) in
     get stored (Some {[ "source" := "a.pdf" ]})
     = Return {| g_ids := map (fun t => fst (fst t)) selected;
                 g_documents := map (fun t => snd (fst t)) selected;
                 g_metadatas := map snd selected |}
     /\ (forall meta, where_matches {[ "source" := "a.pdf" ]} meta = true
                      <-> ({[ "source" := "a.pdf" ]} : gmap string string) ⊆ meta)
     /\ (({[ "source" := "a.pdf" ]} : gmap string string) = ∅ ->
         selected = entries stored)
     /\ get stored None
        = Return {| g_ids := map (fun t => fst (fst t)) (entries stored);
                    g_documents := map (fun t => snd (fst t)) (entries stored);
                    g_metadatas := map snd (entries stored) |}.
Proof.
  split; [exact I1_stored|].
  exact (get_returns_matching stored {[ "source" := "a.pdf" ]} I1_stored).
Defined.

Lemma source_exists_iff_witness :
  I1 stored /\ PyStr.truthy "a.pdf" = true
  /\ (source_exists stored (Some "a.pdf") = true
      <-> exists meta, meta ∈ metadatas stored /\ meta !! "source" = Some "a.pdf").
Proof.
  split; [exact I1_stored|]. split; [reflexivity|].
  exact (source_exists_iff stored "a.pdf" I1_stored eq_refl).
Defined.

Lemma chunk_and_store_count_witness :
  chunk_and_store io_ok "hello world" fresh no_disk (Some "a.pdf") 1000 200
  = (Return (1, false), stored, stored_disk)
  /\ count stored = count fresh + 1
  /\ (false = true -> 1 = 0 /\ stored = fresh /\ stored_disk = no_disk)
  /\ (false = false ->
      exists chunks,
        split_text 1000 200 "hello world" = Return chunks /\ 1 = len chunks
        /\ documents stored = (documents fresh ++ chunks)%list
        /\ ids stored = (ids fresh ++ map (uuid4 io_ok) (seq 0 (length chunks)))%list)
  /\ (I1 fresh -> I1 stored).
Proof.
  split; [exact Scenarios.first_upload_run|].
  exact (chunk_and_store_count (EML := Scenarios.model_laws) io_ok "hello world"
           fresh no_disk (Some "a.pdf") 1000 200 1 false stored stored_disk
           Scenarios.first_upload_run).
Defined.

Lemma chunk_and_store_raise_keeps_state_witness :
  chunk_and_store io_ok "hello world" narrow narrow_disk (Some "a.pdf") 1000 200
  = (Raise DimensionMismatch, narrow, narrow_disk)
  /\ narrow = narrow /\ narrow_disk = narrow_disk
  /\ source_exists narrow (Some "a.pdf") = false
  /\ (split_text 1000 200 "hello world" = Raise DimensionMismatch
      \/ exists chunks, split_text 1000 200 "hello world" = Return chunks
           /\ (encode chunks = Raise DimensionMismatch
               \/ exists rows, encode chunks = Return rows
                    /\ index_add (index narrow) rows = Raise DimensionMismatch)).
Proof.
  split; [exact narrow_upload_run|].
  exact (chunk_and_store_raise_keeps_state io_ok "hello world" narrow narrow_disk
           (Some "a.pdf") 1000 200 DimensionMismatch narrow narrow_disk
           narrow_upload_run).
Defined.

Lemma dedup_per_source_witness :
  I1 fresh /\ PyStr.truthy "b.pdf" = true /\ Some "a.pdf" <> Some "b.pdf"
  /\ source_exists stored (Some "b.pdf") = source_exists fresh (Some "b.pdf").
Proof.
  split; [exact Scenarios.I1_fresh|]. split; [reflexivity|]. split; [discriminate|].
  apply (dedup_per_source io_ok "hello world" fresh no_disk (Some "a.pdf") "b.pdf"
           1000 200 1 false stored stored_disk);
    [exact Scenarios.I1_fresh|reflexivity|discriminate|exact Scenarios.first_upload_run].
Defined.

Lemma query_metadata_aligned_witness :
  I1 library /\ query library ["xx"] 5 = Return library_answer
  /\ Forall2 (fun docs metas =>
                Forall2 (fun doc meta =>
                           exists i : nat, documents library !! i = Some doc
                                           /\ metadatas library !! i = Some meta)
                        docs metas)
             (q_documents library_answer) (q_metadatas library_answer).
Proof.
  assert (query library ["xx"] 5 = Return library_answer) as Hq
    by (vm_compute; reflexivity).
  split; [exact I1_library|]. split; [exact Hq|].
  exact (query_metadata_aligned library ["xx"] 5 library_answer I1_library Hq).
Defined.

Lemma retrieve_context_semantic_on_consistent_witness :
  I1 stored /\ documents stored <> [] /\ 1 <= 5
  /\ encode ["hello"] = Return [embed "hello"]
  /\ vdim (embed "hello") = d (index stored)
  /\ exists docs,
       retrieve_context "hello" stored 5 (Some four_fruits)
       = (PyStr.join blank_line docs, "semantic")
       /\ len docs = Z.min 5 (count stored)
       /\ (forall doc, In doc docs -> In doc (documents stored)).
Proof.
  assert (documents stored <> []) as Hne by (vm_compute; discriminate).
  assert (vdim (embed "hello") = d (index stored)) as Hdim by (vm_compute; reflexivity).
  split; [exact I1_stored|]. split; [exact Hne|]. split; [lia|].
  split; [reflexivity|]. split; [exact Hdim|].
  apply (retrieve_context_semantic_on_consistent stored "hello" 5 (Some four_fruits)
           (embed "hello") I1_stored Hne); [lia|reflexivity|exact Hdim].
Defined.

Lemma escaped_chunk_injective_witness :
  escaped_chunk quoted_chunk = escaped_chunk quoted_chunk
  /\ quoted_chunk = quoted_chunk.
Proof.
  split; [reflexivity|].
  exact (escaped_chunk_injective quoted_chunk quoted_chunk eq_refl).
Defined.

Example quoted_chunk_frame :
  content_frame quoted_chunk
  = "data: {" ++ String dquote "content" ++ String dquote ": " ++ String dquote "say "
    ++ String backslash (String dquote "hi") ++ String backslash (String dquote EmptyString)
    ++ String backslash (String backslash EmptyString) ++ String backslash "nbye"
    ++ String dquote ", " ++ String dquote "done" ++ String dquote ": false}"
    ++ PyStr.nl ++ PyStr.nl.
Proof. vm_compute. reflexivity. Qed.

Lemma upload_without_speech_witness :
  tmp_write silence = None
  /\ transcribe_audio silence "RIFF" = Return "   "
  /\ PyStr.all_space "   " = true
  /\ (exists r, process_audio silence "RIFF" "talk.wav" stored stored_disk
                = (Return r, stored, stored_disk)
                /\ status r = "error" /\ duplicate r = false)
  /\ (exists r, process_video silence "RIFF" "talk.wav" stored stored_disk
                = (Return r, stored, stored_disk)
                /\ status r = "error" /\ duplicate r = false).
Proof.
  split; [reflexivity|]. split; [reflexivity|]. split; [reflexivity|].
  exact (upload_without_speech silence "RIFF" "talk.wav" stored stored_disk "   "
           eq_refl eq_refl eq_refl).
Defined.

Example first_talk_run :
  fst (fst first_talk)
  = Return {| status := "success";
              message := "Processed 1 chunks from audio.";
              duplicate := false |}.
Proof. vm_compute. reflexivity. Qed.

Example first_clip_run :
  fst (fst first_clip)
  = Return {| status := "success";
              message := "Processed 1 chunks from video.";
              duplicate := false |}.
Proof. vm_compute. reflexivity. Qed.

Lemma first_talk_record :
  first_talk
  = (Return {| status := "success"; message := "Processed 1 chunks from audio.";
               duplicate := false |}, talk_stored, talk_disk).
Proof. vm_compute. reflexivity. Qed.

Lemma reupload_is_duplicate_witness :
  I1 fresh /\ PyStr.truthy "talk.wav" = true
  /\ tmp_write speech = None
  /\ transcribe_audio speech "RIFF2" = Return "good morning everyone"
  /\ PyStr.all_space "good morning everyone" = false
  /\ count fresh < count talk_stored
  /\ exists r2,
       process_audio speech "RIFF2" "talk.wav" talk_stored talk_disk
       = (Return r2, talk_stored, talk_disk)
       /\ status r2 = "success" /\ duplicate r2 = true.
Proof.
  assert (count fresh < count talk_stored) as Hgrew by (vm_compute; reflexivity).
  split; [exact Scenarios.I1_fresh|]. do 4 (split; [reflexivity|]).
  split; [exact Hgrew|].
  exact (proj1 (reupload_is_duplicate speech speech "RIFF" "RIFF2" "talk.wav"
                  fresh no_disk "good morning everyone"
                  Scenarios.I1_fresh eq_refl eq_refl eq_refl eq_refl)
           _ talk_stored talk_disk first_talk_record eq_refl (or_intror Hgrew)).
Defined.

Lemma add_keeps_I1_iff_witness :
  I1 fresh /\ ["hello world"] <> ([] : list string)
  /\ (I1 added
      <-> (length ["uuid-0"] = length ["hello world"]
           /\ (truthy_list (Some [({[ "source" := "a.pdf" ]} : gmap string string)]) = true ->
               length (default [] (Some [({[ "source" := "a.pdf" ]} : gmap string string)]))
               = length ["hello world"]))).
Proof.
  split; [exact Scenarios.I1_fresh|]. split; [exact hello_not_empty|].
  exact (add_keeps_I1_iff (EML := Scenarios.model_laws) io_ok fresh no_disk ["uuid-0"]
           ["hello world"] (Some [{[ "source" := "a.pdf" ]}]) added added_disk
           Scenarios.I1_fresh hello_not_empty first_add_run).
Defined.

(** Two ids for one document: [add] returns and I1 is lost. *)
Example add_two_ids_one_document :
  let '(r, c', _) :=
    add io_ok fresh no_disk ["uuid-0"; "uuid-1"] (Some ["hello world"]) None in
  r = Return tt /\ ~ I1 c'.
Proof.
  vm_compute. split; [reflexivity|]. intros (Hids & _). discriminate.
Qed.

Lemma stored_chunks_found_by_source_witness :
  I1 fresh /\ PyStr.truthy "a.pdf" = true
  /\ chunk_and_store io_ok "hello world" fresh no_disk (Some "a.pdf") 1000 200
     = (Return (1, false), stored, stored_disk)
  /\ exists chunks,
       split_text 1000 200 "hello world" = Return chunks /\ 1 = len chunks
       /\ get stored (Some {[ "source" := "a.pdf" ]})
          = Return {| g_ids := map (uuid4 io_ok) (seq 0 (length chunks));
                      g_documents := chunks;
                      g_metadatas := map (fun _ => {[ "source" := "a.pdf" ]}) chunks |}.
Proof.
  split; [exact Scenarios.I1_fresh|]. split; [reflexivity|].
  split; [exact Scenarios.first_upload_run|].
  exact (stored_chunks_found_by_source io_ok "hello world" fresh no_disk "a.pdf"
           1000 200 1 stored stored_disk
           Scenarios.I1_fresh eq_refl Scenarios.first_upload_run).
Defined.

End MoreScenarios.
